(** * Life Moves API: the route handlers of [main.py] over a document store

    A shallow embedding of [src/main.py] and [src/schemas.py].  Python
    values, dictionaries and exceptions are modelled in [Py], the
    collection operations of the store client in [Mongo], the pydantic
    models in [Schemas]; the handlers are functions in a state-and-error
    monad whose state is the process-wide store handle [db]. *)

From Stdlib Require Import ZArith Ascii String List Bool Lia.
From stdpp Require Import base option list gmap strings fin_maps.

#[local] Set Warnings "-register-all".
Local Open Scope string_scope.
Local Open Scope list_scope.
Local Open Scope Z_scope.

(** ** Python values *)

Module Py.

(** The values that occur in stored documents: JSON-like scalars and
    containers, the store's ObjectId (a 96-bit number) and datetimes
    (microseconds since the epoch). *)
Inductive value : Type :=
| VNone
| VBool (b : bool)
| VInt (n : Z)
| VStr (s : string)
| VList (l : list value)
| VDict (d : list (string * value))
| VOid (n : N)
| VDate (t : Z).

(** Python's [==] on these values. *)
Fixpoint value_eqb (a b : value) {struct a} : bool :=
  match a, b with
  | VNone, VNone => true
  | VBool x, VBool y => Bool.eqb x y
  | VInt x, VInt y => Z.eqb x y
  | VStr x, VStr y => String.eqb x y
  | VList x, VList y =>
      (fix go (l1 l2 : list value) {struct l1} : bool :=
         match l1, l2 with
         | [], [] => true
         | u :: l1', v :: l2' => value_eqb u v && go l1' l2'
         | _, _ => false
         end) x y
  | VDict x, VDict y =>
      (fix go (l1 l2 : list (string * value)) {struct l1} : bool :=
         match l1, l2 with
         | [], [] => true
         | (k1, u) :: l1', (k2, v) :: l2' =>
             String.eqb k1 k2 && value_eqb u v && go l1' l2'
         | _, _ => false
         end) x y
  | VOid x, VOid y => N.eqb x y
  | VDate x, VDate y => Z.eqb x y
  | _, _ => false
  end.

(** Truth value testing ([if x:], [not x]). *)
Definition truthy (v : value) : bool :=
  match v with
  | VNone => false
  | VBool b => b
  | VInt n => negb (n =? 0)
  | VStr s => negb (String.eqb s EmptyString)
  | VList l => match l with [] => false | _ :: _ => true end
  | VDict d => match d with [] => false | _ :: _ => true end
  | VOid _ => true
  | VDate _ => true
  end.

(** A dictionary with string keys. *)
Abbreviation dict := (gmap string value).

(** [d.get(k)] and [d.get(k, default)]. *)
Definition get (d : dict) (k : string) : value := default VNone (d !! k).
Definition get_or (d : dict) (k : string) (dflt : value) : value :=
  default dflt (d !! k).

(** Truth value of a dictionary, and of [None]-or-dictionary. *)
Definition dict_truthy (d : dict) : bool := negb (bool_decide (d = ∅)).
Definition opt_truthy (o : option dict) : bool :=
  match o with Some d => dict_truthy d | None => false end.

(** Truth value of an optional string parameter ([None] and the empty
    string are both false). *)
Definition str_truthy (o : option string) : bool :=
  match o with
  | Some s => negb (String.eqb s EmptyString)
  | None => false
  end.

(** What [str.lower] does on ASCII text: the letters A..Z are mapped to
    a..z.  [str.lower] itself follows the Unicode case mappings and is a
    parameter of the handlers below; this function stands for it where a
    handler is run on ASCII requests. *)
Definition lower_ascii (c : ascii) : ascii :=
  let n := nat_of_ascii c in
  if ((65 <=? n) && (n <=? 90))%nat then ascii_of_nat (n + 32) else c.

Fixpoint ascii_lower (s : string) : string :=
  match s with
  | EmptyString => EmptyString
  | String c s' => String (lower_ascii c) (ascii_lower s')
  end.

(** [sub in s] for strings. *)
Fixpoint contains (s sub : string) : bool :=
  String.prefix sub s ||
  match s with
  | EmptyString => false
  | String _ s' => contains s' sub
  end.

End Py.
Import Py.

(** ** Exceptions *)

(** What a handler can raise: FastAPI's [HTTPException] and request
    validation error, the two failures of the document store adapter, and
    the Python exceptions that no handler catches. *)
Inductive error : Type :=
| HTTPException (status_code : Z) (detail : string)
| RequestValidationError (field : string)
| StoreUnavailable
| WriteFailed
| TypeError (msg : string)
| AttributeError (msg : string)
| KeyError (key : string)
| ValidationError (field : string).

(** The status the HTTP layer answers with: unhandled exceptions and the
    adapter's failures are server errors. *)
Definition status_of (e : error) : Z :=
  match e with
  | HTTPException c _ => c
  | RequestValidationError _ => 422
  | _ => 500
  end.

Definition client_error (e : error) : bool :=
  (400 <=? status_of e) && (status_of e <? 500).

(** Pure computations that may raise. *)
Definition res (A : Type) : Type := error + A.

Definition res_bind {A B : Type} (c : res A) (k : A -> res B) : res B :=
  match c with
  | inl e => inl e
  | inr a => k a
  end.

Declare Scope res_scope.
Delimit Scope res_scope with res.
Notation "x <- c1 ;; c2" := (res_bind c1 (fun x => c2))
  (at level 100, c1 at next level, right associativity) : res_scope.

(** ** The store client *)

Module Mongo.

(** The two match criteria the handlers build: [{field: v}] and
    [{field: {"$in": [v1, ...]}}]. *)
Inductive criterion : Type :=
| Equals (v : value)
| InSet (vs : list value).

(** A filter: a Python dictionary from field names to criteria, read as a
    conjunction. *)
Abbreviation query := (gmap string criterion).

(** A field matches [v] when it equals [v] or is an array with an element
    equal to [v]; a missing field matches only [null]. *)
Definition field_matches (field : option value) (v : value) : bool :=
  match field with
  | None => value_eqb v VNone
  | Some f =>
      value_eqb f v ||
      match f with
      | VList l => existsb (fun x => value_eqb x v) l
      | _ => false
      end
  end.

Definition criterion_holds (c : criterion) (field : option value) : bool :=
  match c with
  | Equals v => field_matches field v
  | InSet vs => existsb (field_matches field) vs
  end.

Definition matches (q : query) (d : dict) : bool :=
  forallb (fun kc => criterion_holds (snd kc) (d !! fst kc)) (map_to_list q).

(** The database: its collections, each a sequence of documents in
    insertion order, and the next identifier the store will assign. *)
Record database : Type := {
  colls : gmap string (list dict);
  next_oid : N
}.

Definition docs (name : string) (m : database) : list dict :=
  default [] (colls m !! name).

Definition set_docs (name : string) (l : list dict) (m : database) : database :=
  {| colls := <[name := l]> (colls m); next_oid := next_oid m |}.

(** [find(filter)], read to the end. *)
Definition find (name : string) (q : query) (m : database) : list dict :=
  List.filter (matches q) (docs name m).

(** [find_one(filter)]: the first match or [None]. *)
Definition find_one (name : string) (q : query) (m : database) : option dict :=
  head (find name q m).

Fixpoint update_first (p : dict -> bool) (f : dict -> dict) (l : list dict)
  : list dict :=
  match l with
  | [] => []
  | d :: l' => if p d then f d :: l' else d :: update_first p f l'
  end.

(** [update_one(filter, {"$set": fields})]: the first match gets the
    fields; nothing happens when there is no match. *)
Definition update_one (name : string) (q : query) (fields : dict) (m : database)
  : database :=
  set_docs name (update_first (matches q) (fun d => fields ∪ d) (docs name m)) m.

(** [insert_one(doc)]: a document without [_id] gets a fresh ObjectId; a
    document that brings an [_id] already in the collection is refused. *)
Definition insert_one (name : string) (d : dict) (m : database)
  : option (value * database) :=
  match d !! "_id" with
  | None =>
      let i := VOid (next_oid m) in
      Some (i, {| colls := <[name := docs name m ++ [<["_id" := i]> d]]> (colls m);
                  next_oid := N.succ (next_oid m) |})
  | Some i =>
      if existsb (fun d' => match d' !! "_id" with
                            | Some j => value_eqb j i
                            | None => false
                            end) (docs name m)
      then None
      else Some (i, set_docs name (docs name m ++ [d]) m)
  end.

End Mongo.

(** ** Handlers: state and errors *)

(** Modelled from the spec: the module-level [db] of [database.py], which
    is not among the sources.  It is the process-wide store connection
    handle, initialised once at startup and [None] when no store is
    configured. *)
Abbreviation handle := (option Mongo.database).

(** A handler runs against the handle and either raises or returns; the
    store keeps whatever was written before an exception. *)
Definition Handler (A : Type) : Type := handle -> res A * handle.

Definition ret {A : Type} (a : A) : Handler A := fun db => (inr a, db).

Definition raise {A : Type} (e : error) : Handler A := fun db => (inl e, db).

Definition bind {A B : Type} (c : Handler A) (k : A -> Handler B) : Handler B :=
  fun db =>
    match c db with
    | (inl e, db') => (inl e, db')
    | (inr a, db') => k a db'
    end.

Definition lift {A : Type} (r : res A) : Handler A := fun db => (r, db).

Declare Scope handler_scope.
Delimit Scope handler_scope with handler.
Bind Scope handler_scope with Handler.
Notation "x <- c1 ;; c2" := (bind c1 (fun x => c2))
  (at level 100, c1 at next level, right associativity) : handler_scope.
Notation "c1 ;; c2" := (bind c1 (fun _ => c2))
  (at level 100, right associativity) : handler_scope.

(** ** The models of [schemas.py] *)

Module Schemas.

(** [Literal["free", "pro"]]: a user's plan, and the tier of content and
    programs. *)
Inductive tier : Type := Free | Pro.

Definition tier_str (t : tier) : string :=
  match t with Free => "free" | Pro => "pro" end.

(** [Literal["art", "movement", "mindfulness"]]. *)
Inductive category : Type := Art | Movement | Mindfulness.

Definition category_str (c : category) : string :=
  match c with
  | Art => "art"
  | Movement => "movement"
  | Mindfulness => "mindfulness"
  end.

(** [Literal["great", "good", "ok", "low"]]. *)
Inductive mood : Type := Great | Good | Ok | Low.

Definition mood_str (m : mood) : string :=
  match m with
  | Great => "great"
  | Good => "good"
  | Ok => "ok"
  | Low => "low"
  end.

Definition opt_str (o : option string) : value :=
  match o with Some s => VStr s | None => VNone end.

Definition opt_int (o : option Z) : value :=
  match o with Some n => VInt n | None => VNone end.

Definition str_list (l : list string) : value := VList (map VStr l).

(** A pydantic model: the constraints checked when an instance is built
    (the field that fails is reported), and its dictionary form. *)
Class BaseModel (A : Type) : Type := {
  validate : A -> res A;
  model_dump : A -> dict
}.

Module User.
Record t : Type := mk {
  name : string;
  email : string;
  password_hash : string;
  plan : tier;
  preferences : option (list (string * value));
  streak : Z
}.
Definition dump (u : t) : dict :=
  <["name" := VStr (name u)]>
  (<["email" := VStr (email u)]>
  (<["password_hash" := VStr (password_hash u)]>
  (<["plan" := VStr (tier_str (plan u))]>
  (<["preferences" := match preferences u with
                      | Some d => VDict d
                      | None => VNone
                      end]>
  (<["streak" := VInt (streak u)]> ∅))))).
End User.

Module ContentItem.
Record t : Type := mk {
  title : string;
  description : option string;
  category : Schemas.category;
  tags : list string;
  tier : Schemas.tier;
  duration_minutes : option Z;
  media_url : option string
}.
Definition dump (i : t) : dict :=
  <["title" := VStr (title i)]>
  (<["description" := opt_str (description i)]>
  (<["category" := VStr (category_str (category i))]>
  (<["tags" := str_list (tags i)]>
  (<["tier" := VStr (tier_str (tier i))]>
  (<["duration_minutes" := opt_int (duration_minutes i)]>
  (<["media_url" := opt_str (media_url i)]> ∅)))))).
End ContentItem.

Module Task.
Record t : Type := mk {
  user_id : string;
  week : string;
  task_type : string;
  notes : option string;
  completed : bool
}.
Definition dump (x : t) : dict :=
  <["user_id" := VStr (user_id x)]>
  (<["week" := VStr (week x)]>
  (<["task_type" := VStr (task_type x)]>
  (<["notes" := opt_str (notes x)]>
  (<["completed" := VBool (completed x)]> ∅)))).
End Task.

Module Checkin.
Record t : Type := mk {
  user_id : string;
  mood : Schemas.mood;
  note : option string;
  date : Z
}.
Definition dump (x : t) : dict :=
  <["user_id" := VStr (user_id x)]>
  (<["mood" := VStr (mood_str (mood x))]>
  (<["note" := opt_str (note x)]>
  (<["date" := VDate (date x)]> ∅))).
End Checkin.

Module Squad.
Record t : Type := mk {
  name : string;
  description : option string;
  owner_id : string;
  members : list string
}.
Definition dump (x : t) : dict :=
  <["name" := VStr (name x)]>
  (<["description" := opt_str (description x)]>
  (<["owner_id" := VStr (owner_id x)]>
  (<["members" := str_list (members x)]> ∅))).
End Squad.

Module Post.
Record t : Type := mk {
  user_id : string;
  squad_id : option string;
  text : string;
  created_at : Z
}.
Definition dump (x : t) : dict :=
  <["user_id" := VStr (user_id x)]>
  (<["squad_id" := opt_str (squad_id x)]>
  (<["text" := VStr (text x)]>
  (<["created_at" := VDate (created_at x)]> ∅))).
End Post.

Module Program.
Record t : Type := mk {
  title : string;
  description : option string;
  weeks : Z;
  tier : Schemas.tier
}.
Definition dump (x : t) : dict :=
  <["title" := VStr (title x)]>
  (<["description" := opt_str (description x)]>
  (<["weeks" := VInt (weeks x)]>
  (<["tier" := VStr (tier_str (tier x))]> ∅))).
End Program.

Module Enrollment.
Record t : Type := mk {
  user_id : string;
  program_id : string;
  progress_week : Z
}.
Definition dump (x : t) : dict :=
  <["user_id" := VStr (user_id x)]>
  (<["program_id" := VStr (program_id x)]>
  (<["progress_week" := VInt (progress_week x)]> ∅)).
End Enrollment.

Module Feedback.
Record t : Type := mk {
  user_id : option string;
  message : string;
  rating : option Z
}.
Definition dump (x : t) : dict :=
  <["user_id" := opt_str (user_id x)]>
  (<["message" := VStr (message x)]>
  (<["rating" := opt_int (rating x)]> ∅)).
(** [rating: Optional[int] = Field(None, ge=1, le=5)]. *)
Definition check (x : t) : res t :=
  match rating x with
  | None => inr x
  | Some r =>
      if (1 <=? r) && (r <=? 5) then inr x else inl (ValidationError "rating")
  end.
End Feedback.

#[export] Instance ContentItem_model : BaseModel ContentItem.t :=
  {| validate := inr; model_dump := ContentItem.dump |}.
#[export] Instance Task_model : BaseModel Task.t :=
  {| validate := inr; model_dump := Task.dump |}.
#[export] Instance Checkin_model : BaseModel Checkin.t :=
  {| validate := inr; model_dump := Checkin.dump |}.
#[export] Instance Squad_model : BaseModel Squad.t :=
  {| validate := inr; model_dump := Squad.dump |}.
#[export] Instance Post_model : BaseModel Post.t :=
  {| validate := inr; model_dump := Post.dump |}.
#[export] Instance Program_model : BaseModel Program.t :=
  {| validate := inr; model_dump := Program.dump |}.
#[export] Instance Enrollment_model : BaseModel Enrollment.t :=
  {| validate := inr; model_dump := Enrollment.dump |}.
#[export] Instance Feedback_model : BaseModel Feedback.t :=
  {| validate := Feedback.check; model_dump := Feedback.dump |}.

End Schemas.
Import Schemas.

(** ** The handlers of [main.py] *)

(** Sample behaviours of the interpreter's built-ins, used to run the
    handlers on concrete requests. *)
Definition sample_hash (s : string) : Z := - Z.of_nat (String.length s) - 7.

Fixpoint digits (fuel : nat) (n : N) (acc : string) : string :=
  match fuel with
  | O => acc
  | S fuel' =>
      let c := ascii_of_N (48 + n mod 10) in
      if (n <? 10)%N then String c acc
      else digits fuel' (n / 10)%N (String c acc)
  end.

Definition sample_str (v : value) : string :=
  match v with
  | VNone => "None"
  | VBool true => "True"
  | VBool false => "False"
  | VInt n =>
      (if n <? 0 then "-" else EmptyString) +:+
      digits (S (N.to_nat (N.log2 (Z.to_N (Z.abs n))))) (Z.to_N (Z.abs n)) EmptyString
  | VStr s => s
  | VOid n => "oid" +:+ digits (S (N.to_nat (N.log2 n))) n EmptyString
  | VDate t => "date"
  | VList _ => "[...]"
  | VDict _ => "{...}"
  end.

Definition sample_email (s : string) : bool := contains s "@".

(** A normalisation as [EmailStr] applies it: the domain, the part after
    the first [@], in lower case. *)
Fixpoint sample_normalize (s : string) : string :=
  match s with
  | EmptyString => EmptyString
  | String c s' =>
      if Ascii.eqb c "@" then String c (ascii_lower s')
      else String c (sample_normalize s')
  end.

(** Sample stores. *)
Definition empty_store : Mongo.database :=
  {| Mongo.colls := ∅; Mongo.next_oid := 0 |}.

Definition ann : User.t :=
  User.mk "Ann" "ann@example.org" "sha1::13" Free (Some []) 0.

Definition ann_store : Mongo.database :=
  {| Mongo.colls := {[ "user" := [<["_id" := VOid 0]> (User.dump ann)] ]};
     Mongo.next_oid := 1 |}.

Definition a_checkin_of_u1 : Checkin.t := Checkin.mk "u1" Ok None 0.

Definition store_31_checkins : Mongo.database :=
  {| Mongo.colls :=
       {[ "checkin" :=
            map (fun n => <["_id" := VOid (N.of_nat n)]> (Checkin.dump a_checkin_of_u1))
                (seq 0 31) ]};
     Mongo.next_oid := 31 |}.

Definition yoga_flow : ContentItem.t :=
  ContentItem.mk "Yoga Flow" None Movement [] Free None None.

Definition breathing_101 : ContentItem.t :=
  ContentItem.mk "Breathing 101" None Mindfulness [] Free None None.

Definition yoga_store : Mongo.database :=
  {| Mongo.colls := {[ "contentitem" := [<["_id" := VOid 0]> (ContentItem.dump yoga_flow)] ]};
     Mongo.next_oid := 1 |}.

Definition morning_crew : Squad.t := Squad.mk "Morning Crew" None "u1" [].

Section Main.

(** The built-ins and library calls the handlers rely on: [hash] on
    strings (seeded per process), [str] on values, pydantic's [EmailStr],
    which refuses an address or yields its normalised form, and
    [str.lower], of which the handlers use that it maps the empty string to
    itself and no other string to it. *)
Variable py_hash : string -> Z.
Variable py_str : value -> string.
Variable valid_email : string -> bool.
Variable normalize_email : string -> string.
Variable lower : string -> string.
Hypothesis lower_nil : lower EmptyString = EmptyString.
Hypothesis lower_nonempty : forall s, s <> EmptyString -> lower s <> EmptyString.

(** [email: EmailStr]: an accepted address is stored normalised. *)
Definition User_check (u : User.t) : res User.t :=
  if valid_email (User.email u)
  then inr (User.mk (User.name u) (normalize_email (User.email u))
                    (User.password_hash u) (User.plan u) (User.preferences u)
                    (User.streak u))
  else inl (ValidationError "email").

#[local] Instance User_model : BaseModel User.t :=
  {| validate := User_check; model_dump := User.dump |}.

(** What FastAPI does with a request body before it calls the handler:
    the model is validated, and a failure is answered with a 422 naming
    the field; the handler does not run. *)
Definition with_body {A B : Type} `{BaseModel A} (h : A -> Handler B) (body : A)
  : Handler B :=
  match validate body with
  | inl (ValidationError f) => raise (RequestValidationError f)
  | inl e => raise e
  | inr x => h x
  end.

(** [expr[key]] on a dictionary. *)
Definition getitem (d : dict) (k : string) : res value :=
  match d !! k with
  | Some v => inr v
  | None => inl (KeyError k)
  end.

(** [v.lower()]: only strings have the method. *)
Definition str_lower (v : value) : res string :=
  match v with
  | VStr s => inr (lower s)
  | VNone => inl (AttributeError "'NoneType' object has no attribute 'lower'")
  | _ => inl (AttributeError "object has no attribute 'lower'")
  end.

(** *** [database.py] *)

(** Modelled from the spec: [create_document] of [database.py], which is
    not among the sources.  It inserts the record's dictionary form into
    the named collection and returns the identifier the store assigned, as
    a string; it signals [StoreUnavailable] without a store and
    [WriteFailed] when the insert fails. *)
Definition create_document {A : Type} `{BaseModel A}
    (collection_name : string) (record : A) : Handler string :=
  fun db =>
    match db with
    | None => (inl StoreUnavailable, db)
    | Some m =>
        match Mongo.insert_one collection_name (model_dump record) m with
        | None => (inl WriteFailed, db)
        | Some (i, m') => (inr (py_str i), Some m')
        end
    end.

(** Modelled from the spec: [get_documents] of [database.py], which is
    not among the sources.  It returns all records of the named collection
    that match the filter, or up to [limit] of them, each with its internal
    identifier; [StoreUnavailable] without a store. *)
Definition get_documents (collection_name : string) (filt : Mongo.query)
    (limit : option Z) : Handler (list dict) :=
  fun db =>
    match db with
    | None => (inl StoreUnavailable, db)
    | Some m =>
        let found := Mongo.find collection_name filt m in
        (inr match limit with
             | None => found
             | Some n => take (Z.to_nat n) found
             end, db)
    end.

(** *** Utility *)

(** [db[name]]: subscripting [None] is a [TypeError]. *)
Definition collection (name : string) : Handler string :=
  fun db =>
    match db with
    | None => (inl (TypeError "'NoneType' object is not subscriptable"), db)
    | Some _ => (inr name, db)
    end.

(** The two collection methods the handlers call themselves. *)
Definition find_one (c : string) (q : Mongo.query) : Handler (option dict) :=
  fun db =>
    match db with
    | None => (inl (TypeError "'NoneType' object is not subscriptable"), db)
    | Some m => (inr (Mongo.find_one c q m), db)
    end.

Definition update_one (c : string) (q : Mongo.query) (fields : dict)
  : Handler unit :=
  fun db =>
    match db with
    | None => (inl (TypeError "'NoneType' object is not subscriptable"), db)
    | Some m => (inr tt, Some (Mongo.update_one c q fields m))
    end.

(** Reading the module-level name [db].  Modelled from the spec: the truth
    value of [db] in [if not db:] tells an absent handle ([None], false)
    from a present one (true). *)
Definition the_db : Handler handle := fun db => (inr db, db).

Definition db_truthy (h : handle) : bool :=
  match h with Some _ => true | None => false end.

(** [{"id": new_id}]. *)
Definition id_response (new_id : string) : dict := {[ "id" := VStr new_id ]}.

(** *** Auth *)

Record SignupRequest : Type := {
  signup_name : string;
  signup_email : string;
  signup_password : string
}.

Record LoginRequest : Type := {
  login_email : string;
  login_password : string
}.

#[local] Instance SignupRequest_model : BaseModel SignupRequest :=
  {| validate := inr;
     model_dump := fun r =>
       <["name" := VStr (signup_name r)]>
       (<["email" := VStr (signup_email r)]>
       (<["password" := VStr (signup_password r)]> ∅)) |}.

#[local] Instance LoginRequest_model : BaseModel LoginRequest :=
  {| validate := inr;
     model_dump := fun r =>
       <["email" := VStr (login_email r)]>
       (<["password" := VStr (login_password r)]> ∅) |}.

(** [f"sha1::{abs(hash(password))}"]. *)
Definition password_hash_of (password : string) : string :=
  "sha1::" +:+ py_str (VInt (Z.abs (py_hash password))).

Definition signup (payload : SignupRequest) : Handler dict :=
  (db <- the_db ;;
   if negb (db_truthy db)
   then raise (HTTPException 500 "Database unavailable")
   else
     c <- collection "user" ;;
     existing <- find_one c {[ "email" := Mongo.Equals (VStr (signup_email payload)) ]} ;;
     if opt_truthy existing
     then raise (HTTPException 400 "Email already registered")
     else
       let password_hash := password_hash_of (signup_password payload) in
       user <- lift (validate (User.mk (signup_name payload) (signup_email payload)
                                       password_hash Free (Some []) 0)) ;;
       new_id <- create_document "user" user ;;
       ret (id_response new_id))%handler.

Definition login (payload : LoginRequest) : Handler dict :=
  (c <- collection "user" ;;
   u <- find_one c {[ "email" := Mongo.Equals (VStr (login_email payload)) ]} ;;
   match u with
   | None => raise (HTTPException 404 "User not found")
   | Some u =>
       if negb (dict_truthy u)
       then raise (HTTPException 404 "User not found")
       else
         let expected := get u "password_hash" in
         if negb (value_eqb expected (VStr (password_hash_of (login_password payload))))
         then raise (HTTPException 401 "Invalid credentials")
         else
           let token :=
             "tok_" +:+ py_str (VInt (Z.abs (py_hash (login_email payload +:+
                                                      login_password payload)))) in
           c' <- collection "user" ;;
           i <- lift (getitem u "_id") ;;
           update_one c' {[ "_id" := Mongo.Equals i ]} {[ "session_token" := VStr token ]} ;;
           i' <- lift (getitem u "_id") ;;
           ret (<["token" := VStr token]>
                (<["user" := VDict [("id", VStr (py_str i'));
                                    ("name", get u "name");
                                    ("email", get u "email");
                                    ("plan", get_or u "plan" (VStr "free"))]]> ∅))
   end)%handler.

(** *** Library *)

(** The definitions are the handler functions: what they return or
    raise.  The serialisation FastAPI applies afterwards to the value
    returned, under [response_model] where a route declares one, is a
    later step and is not modelled. *)

(** [ql in i.get("title", "").lower() or
     ql in i.get("description", "").lower()]: the second operand is
    evaluated only when the first is false. *)
Definition search_hit (ql : string) (i : dict) : res bool :=
  (t <- str_lower (get_or i "title" (VStr EmptyString)) ;;
   if contains t ql then inr true
   else
     d <- str_lower (get_or i "description" (VStr EmptyString)) ;;
     inr (contains d ql))%res.

(** [[i for i in items if cond(i)]]. *)
Fixpoint comprehension (cond : dict -> res bool) (items : list dict)
  : res (list dict) :=
  match items with
  | [] => inr []
  | i :: rest =>
      (b <- cond i ;;
       r <- comprehension cond rest ;;
       inr (if b then i :: r else r))%res
  end.

Definition list_content (category q tier : option string) : Handler (list dict) :=
  (let filt : Mongo.query := ∅ in
   let filt :=
     if str_truthy category
     then <["category" := Mongo.Equals (opt_str category)]> filt else filt in
   let filt :=
     if str_truthy tier
     then <["tier" := Mongo.Equals (opt_str tier)]> filt else filt in
   items <- get_documents "contentitem" filt None ;;
   items <- (if str_truthy q
             then let ql := lower (default EmptyString q) in
                  lift (comprehension (search_hit ql) items)
             else ret items) ;;
   ret (map (delete "_id") items))%handler.

Definition add_content (item : ContentItem.t) : Handler dict :=
  (new_id <- create_document "contentitem" item ;;
   ret (id_response new_id))%handler.

(** *** Weekly tasks *)

Definition submit_task (task : Task.t) : Handler dict :=
  (new_id <- create_document "task" task ;;
   ret (id_response new_id))%handler.

(** [t["id"] = str(t.pop("_id")) if t.get("_id") else None], the body of
    the loop that five list handlers share. *)
Definition rename_id (t : dict) : dict :=
  if truthy (get t "_id")
  then <["id" := VStr (py_str (get t "_id"))]> (delete "_id" t)
  else <["id" := VNone]> t.

Definition list_tasks (user_id : string) (week : option string)
  : Handler (list dict) :=
  (let filt : Mongo.query := {[ "user_id" := Mongo.Equals (VStr user_id) ]} in
   let filt :=
     if str_truthy week
     then <["week" := Mongo.Equals (opt_str week)]> filt else filt in
   tasks <- get_documents "task" filt None ;;
   ret (map rename_id tasks))%handler.

(** *** Daily check-ins *)

Definition create_checkin (checkin : Checkin.t) : Handler dict :=
  (new_id <- create_document "checkin" checkin ;;
   ret (id_response new_id))%handler.

(** [limit: int = 30]: [None] stands for a call without the parameter. *)
Definition list_checkins (user_id : string) (limit : option Z)
  : Handler (list dict) :=
  (let limit := default 30 limit in
   docs <- get_documents "checkin" {[ "user_id" := Mongo.Equals (VStr user_id) ]}
                         (Some limit) ;;
   ret (map rename_id docs))%handler.

(** *** Squads and posts *)

(** [if squad.owner_id not in squad.members:
       squad.members.append(squad.owner_id)]. *)
Definition with_owner (squad : Squad.t) : Squad.t :=
  if negb (existsb (String.eqb (Squad.owner_id squad)) (Squad.members squad))
  then Squad.mk (Squad.name squad) (Squad.description squad) (Squad.owner_id squad)
                (Squad.members squad ++ [Squad.owner_id squad])
  else squad.

Definition create_squad (squad : Squad.t) : Handler dict :=
  (let squad := with_owner squad in
   new_id <- create_document "squad" squad ;;
   ret (id_response new_id))%handler.

Definition list_squads (member_id : option string) : Handler (list dict) :=
  (let filt : Mongo.query :=
     if str_truthy member_id
     then {[ "members" := Mongo.InSet [opt_str member_id] ]} else ∅ in
   docs <- get_documents "squad" filt None ;;
   ret (map rename_id docs))%handler.

Definition create_post (post : Post.t) : Handler dict :=
  (new_id <- create_document "post" post ;;
   ret (id_response new_id))%handler.

(** [limit: int = 50]. *)
Definition list_posts (squad_id user_id : option string) (limit : option Z)
  : Handler (list dict) :=
  (let limit := default 50 limit in
   let filt : Mongo.query := ∅ in
   let filt :=
     if str_truthy squad_id
     then <["squad_id" := Mongo.Equals (opt_str squad_id)]> filt else filt in
   let filt :=
     if str_truthy user_id
     then <["user_id" := Mongo.Equals (opt_str user_id)]> filt else filt in
   docs <- get_documents "post" filt (Some limit) ;;
   ret (map rename_id docs))%handler.

(** *** Programs and enrollments *)

Definition create_program (program : Program.t) : Handler dict :=
  (new_id <- create_document "program" program ;;
   ret (id_response new_id))%handler.

Definition list_programs (tier : option string) : Handler (list dict) :=
  (let filt : Mongo.query :=
     if str_truthy tier then {[ "tier" := Mongo.Equals (opt_str tier) ]} else ∅ in
   docs <- get_documents "program" filt None ;;
   ret (map (delete "_id") docs))%handler.

Definition enroll_user (enrollment : Enrollment.t) : Handler dict :=
  (new_id <- create_document "enrollment" enrollment ;;
   ret (id_response new_id))%handler.

Definition list_enrollments (user_id : string) : Handler (list dict) :=
  (docs <- get_documents "enrollment" {[ "user_id" := Mongo.Equals (VStr user_id) ]}
                         None ;;
   ret (map rename_id docs))%handler.

(** *** Feedback *)

Definition submit_feedback (feedback : Feedback.t) : Handler dict :=
  (new_id <- create_document "feedback" feedback ;;
   ret (id_response new_id))%handler.

(** *** Liveness and diagnostics *)

Definition read_root : Handler dict :=
  ret (<["name" := VStr "Life Moves API"]> (<["status" := VStr "ok"]> ∅)).

(** What [test_database] asks of its environment: [os.getenv], the
    driver's [db.list_collection_names()], which may raise, and [str(e)]
    of a caught exception. *)
Variable getenv : string -> option string.
Variable list_collection_names : Mongo.database -> res (list string).
Variable exc_str : error -> string.

(** [try: body except Exception as e: handler]. *)
Definition try_except {A : Type} (body : res A) (handler : error -> A) : A :=
  match body with
  | inr a => a
  | inl e => handler e
  end.

(** ["Set" if os.getenv(name) else "Not Set"]. *)
Definition env_report (name : string) : value :=
  if str_truthy (getenv name) then VStr "✅ Set" else VStr "❌ Not Set".

(** The report [test_database] starts from. *)
Definition initial_report : dict :=
  <["backend" := VStr "✅ Running"]>
  (<["database" := VStr "❌ Not Available"]>
  (<["database_url" := VStr "❌ Not Set"]>
  (<["database_name" := VStr "❌ Not Set"]>
  (<["connection_status" := VStr "Not Connected"]>
  (<["collections" := VList []]> ∅))))).

(** Nothing in the outer [try] raises past the inner handler; the inner
    [try] assigns [collections] and [database] only when the driver call
    has returned. *)
Definition test_database : Handler dict :=
  (db <- the_db ;;
   let response := initial_report in
   let response :=
     try_except
       (match db with
        | Some m =>
            let response := <["database" := VStr "✅ Available"]> response in
            let response := <["database_url" := env_report "DATABASE_URL"]> response in
            let response := <["database_name" := env_report "DATABASE_NAME"]> response in
            let response := <["connection_status" := VStr "Connected"]> response in
            inr (try_except
                   (names <- list_collection_names m ;;
                    inr (<["database" := VStr "✅ Connected & Working"]>
                         (<["collections" := str_list (take 10 names)]> response)))%res
                   (fun e =>
                      <["database" :=
                          VStr ("⚠️ Connected but Error: " +:+
                                String.substring 0 80 (exc_str e))]> response))
        | None => inr response
        end)
       (fun e =>
          <["database" := VStr ("❌ Error: " +:+ String.substring 0 80 (exc_str e))]>
            response) in
   ret response)%handler.

(** ** What the properties speak of *)

(** A returned record without the store's identifier field, and one with
    a string under [id]. *)
Definition no_internal_id (d : dict) : Prop := d !! "_id" = None.

Definition string_id (d : dict) : Prop := exists s, d !! "id" = Some (VStr s).

(** The store assigns every document an ObjectId under [_id]. *)
Definition has_oid (d : dict) : bool :=
  match d !! "_id" with
  | Some (VOid _) => true
  | _ => false
  end.

Definition assigned_ids (m : Mongo.database) : bool :=
  forallb (fun kl => forallb has_oid (snd kl)) (map_to_list (Mongo.colls m)).

(** The filter on one string field. *)
Definition field_is (k v : string) : Mongo.query := {[ k := Mongo.Equals (VStr v) ]}.



(** A returned record is a stored document of the collection in which
    the string form of the document's ObjectId stands under [id] in the
    place of [_id], every other field being as stored. *)
Definition renamed_from (name : string) (db : handle) (r : dict) : Prop :=
  exists m d n,
    db = Some m /\ d ∈ Mongo.docs name m /\ d !! "_id" = Some (VOid n)
    /\ r !! "_id" = None
    /\ r !! "id" = Some (VStr (py_str (VOid n)))
    /\ forall k, k <> "_id" -> k <> "id" -> r !! k = d !! k.

(** The equality filter a query parameter stands for: none when the
    parameter is missing or empty. *)
Definition eq_filter (k : string) (param : option string) (d : dict) : bool :=
  if str_truthy param then Mongo.field_matches (d !! k) (opt_str param) else true.

Definition library_matches (category tier : option string) (d : dict) : bool :=
  eq_filter "category" category d && eq_filter "tier" tier d.

(** The text of a field for the search: the string stored, the empty
    string when the field is absent, nothing when it holds another
    value. *)
Definition text_of (i : dict) (k : string) : option string :=
  match i !! k with
  | Some (VStr s) => Some s
  | Some _ => None
  | None => Some EmptyString
  end.

(** The search term occurs in the title or the description, case
    ignored. *)
Definition search_matches (q : string) (i : dict) : bool :=
  contains (lower (default EmptyString (text_of i "title"))) (lower q)
  || contains (lower (default EmptyString (text_of i "description"))) (lower q).

Definition posts_match (squad_id user_id : option string) (d : dict) : bool :=
  eq_filter "squad_id" squad_id d && eq_filter "user_id" user_id d.

(** Every document of the store behind a handle has its ObjectId. *)
Definition handle_ids (db : handle) : bool :=
  match db with
  | Some m => assigned_ids m
  | None => true
  end.

(** A returned record is a stored document of the collection without its
    [_id] and with nothing added. *)
Definition stripped_from (name : string) (db : handle) (r : dict) : Prop :=
  exists m d, db = Some m /\ d ∈ Mongo.docs name m /\ r = delete "_id" d.

(** The entities that have both a create and a list endpoint filtered on
    a field the payload carries: the [user_id] of tasks, check-ins, posts
    and enrollments, and the owner as a member for squads. *)
Inductive entity : Type :=
| a_task (x : Task.t)
| a_checkin (x : Checkin.t)
| a_post (x : Post.t)
| an_enrollment (x : Enrollment.t)
| a_squad (x : Squad.t).

Definition home (e : entity) : string :=
  match e with
  | a_task _ => "task"
  | a_checkin _ => "checkin"
  | a_post _ => "post"
  | an_enrollment _ => "enrollment"
  | a_squad _ => "squad"
  end.

Definition key (e : entity) : string :=
  match e with
  | a_task x => Task.user_id x
  | a_checkin x => Checkin.user_id x
  | a_post x => Post.user_id x
  | an_enrollment x => Enrollment.user_id x
  | a_squad x => Squad.owner_id x
  end.

Definition key_query (e : entity) : Mongo.query :=
  match e with
  | a_squad x => {[ "members" := Mongo.InSet [VStr (Squad.owner_id x)] ]}
  | _ => field_is "user_id" (key e)
  end.

(** The list handlers of posts and squads drop the filter when the
    parameter is empty. *)
Definition key_usable (e : entity) : Prop :=
  match e with
  | a_post x => Post.user_id x <> EmptyString
  | a_squad x => Squad.owner_id x <> EmptyString
  | _ => True
  end.

Definition create (e : entity) : Handler dict :=
  match e with
  | a_task x => submit_task x
  | a_checkin x => create_checkin x
  | a_post x => create_post x
  | an_enrollment x => enroll_user x
  | a_squad x => create_squad x
  end.

Definition list_by_key (e : entity) : Handler (list dict) :=
  match e with
  | a_task x => list_tasks (Task.user_id x) None
  | a_checkin x => list_checkins (Checkin.user_id x) None
  | a_post x => list_posts None (Some (Post.user_id x)) None
  | an_enrollment x => list_enrollments (Enrollment.user_id x)
  | a_squad x => list_squads (Some (Squad.owner_id x))
  end.

(** The fields as submitted, and as they come back: a squad's member list
    has the owner appended when the caller left it out. *)
Definition submitted (e : entity) : dict :=
  match e with
  | a_task x => Task.dump x
  | a_checkin x => Checkin.dump x
  | a_post x => Post.dump x
  | an_enrollment x => Enrollment.dump x
  | a_squad x => Squad.dump x
  end.

Definition returned (e : entity) : dict :=
  match e with
  | a_squad x =>
      if bool_decide (Squad.owner_id x ∈ Squad.members x)
      then Squad.dump x
      else <["members" := str_list (Squad.members x ++ [Squad.owner_id x])]>
             (Squad.dump x)
  | _ => submitted e
  end.

(** The requests of the route table, and the handle after a request was
    served. *)
Inductive request : Type :=
| POST_signup (payload : SignupRequest)
| POST_login (payload : LoginRequest)
| GET_library (category q tier : option string)
| POST_library (item : ContentItem.t)
| POST_tasks (task : Task.t)
| GET_tasks (user_id : string) (week : option string)
| POST_checkins (checkin : Checkin.t)
| GET_checkins (user_id : string) (limit : option Z)
| POST_squads (squad : Squad.t)
| GET_squads (member_id : option string)
| POST_posts (post : Post.t)
| GET_posts (squad_id user_id : option string) (limit : option Z)
| POST_programs (program : Program.t)
| GET_programs (tier : option string)
| POST_enroll (enrollment : Enrollment.t)
| GET_enrollments (user_id : string)
| POST_feedback (feedback : Feedback.t).

Definition after (r : request) (db : handle) : handle :=
  match r with
  | POST_signup payload => snd (with_body signup payload db)
  | POST_login payload => snd (with_body login payload db)
  | GET_library category q tier => snd (list_content category q tier db)
  | POST_library item => snd (with_body add_content item db)
  | POST_tasks task => snd (with_body submit_task task db)
  | GET_tasks user_id week => snd (list_tasks user_id week db)
  | POST_checkins checkin => snd (with_body create_checkin checkin db)
  | GET_checkins user_id limit => snd (list_checkins user_id limit db)
  | POST_squads squad => snd (with_body create_squad squad db)
  | GET_squads member_id => snd (list_squads member_id db)
  | POST_posts post => snd (with_body create_post post db)
  | GET_posts squad_id user_id limit => snd (list_posts squad_id user_id limit db)
  | POST_programs program => snd (with_body create_program program db)
  | GET_programs tier => snd (list_programs tier db)
  | POST_enroll enrollment => snd (with_body enroll_user enrollment db)
  | GET_enrollments user_id => snd (list_enrollments user_id db)
  | POST_feedback feedback => snd (with_body submit_feedback feedback db)
  end.

(** The stores the service reaches from an empty one. *)
Inductive reachable : handle -> Prop :=
| reach_empty : reachable (Some empty_store)
| reach_step (r : request) (db : handle) :
    reachable db -> reachable (after r db).

(** A handler that leaves the handle as it found it. *)
Definition read_only {A : Type} (h : Handler A) : Prop :=
  forall db, snd (h db) = db.

(** The store after [d] was appended to a collection under a fresh
    identifier. *)
Definition appended (name : string) (d : dict) (m : Mongo.database)
  : Mongo.database :=
  {| Mongo.colls :=
       <[name := Mongo.docs name m ++ [<["_id" := VOid (Mongo.next_oid m)]> d]]>
         (Mongo.colls m);
     Mongo.next_oid := N.succ (Mongo.next_oid m) |}.

(** The document a create request adds, and the collection it goes to. *)
Definition created_by (r : request) : option (string * dict) :=
  match r with
  | POST_library item => Some ("contentitem", ContentItem.dump item)
  | POST_tasks task => Some ("task", Task.dump task)
  | POST_checkins checkin => Some ("checkin", Checkin.dump checkin)
  | POST_squads squad => Some ("squad", returned (a_squad squad))
  | POST_posts post => Some ("post", Post.dump post)
  | POST_programs program => Some ("program", Program.dump program)
  | POST_enroll enrollment => Some ("enrollment", Enrollment.dump enrollment)
  | POST_feedback feedback => Some ("feedback", Feedback.dump feedback)
  | _ => None
  end.

(** The one range constraint of the request bodies. *)
Definition rating_ok (r : request) : bool :=
  match r with
  | POST_feedback feedback =>
      match Feedback.rating feedback with
      | Some n => (1 <=? n) && (n <=? 5)
      | None => true
      end
  | _ => true
  end.

Definition is_read (r : request) : bool :=
  match r with
  | GET_library _ _ _ | GET_tasks _ _ | GET_checkins _ _ | GET_squads _
  | GET_posts _ _ _ | GET_programs _ | GET_enrollments _ => true
  | _ => false
  end.

(** The records already matching the key leave room under the handler's
    limit for one more. *)
Definition within_limit (e : entity) (m : Mongo.database) : Prop :=
  match e with
  | a_checkin _ => (length (Mongo.find (home e) (key_query e) m) < 30)%nat
  | a_post _ => (length (Mongo.find (home e) (key_query e) m) < 50)%nat
  | _ => True
  end.

(** How the five handlers that rename the identifier reshape a stored
    document [d] into the record [r]. *)
Definition reshaped (d r : dict) : Prop :=
  if truthy (get d "_id")
  then r !! "_id" = None
       /\ r !! "id" = Some (VStr (py_str (get d "_id")))
       /\ forall k, k <> "_id" -> k <> "id" -> r !! k = d !! k
  else r !! "id" = Some VNone
       /\ forall k, k <> "id" -> r !! k = d !! k.

(** An item on which the search does not raise: its title is a string
    (or absent) and, unless the term occurs in it, so is its
    description. *)
Definition searchable (q : string) (i : dict) : bool :=
  match text_of i "title" with
  | Some t =>
      contains (lower t) (lower q)
      || match text_of i "description" with Some _ => true | None => false end
  | None => false
  end.

(** The emails of the user records, and the identifiers of a collection. *)
Definition user_emails (m : Mongo.database) : list (option value) :=
  map (fun d => d !! "email") (Mongo.docs "user" m).

Definition ids_of (name : string) (m : Mongo.database) : list (option value) :=
  map (fun d => d !! "_id") (Mongo.docs name m).

(** Every identifier in the store is an ObjectId the store has already
    given out. *)
Definition ids_given (m : Mongo.database) : Prop :=
  forall name d, d ∈ Mongo.docs name m ->
    exists k, d !! "_id" = Some (VOid k) /\ (k < Mongo.next_oid m)%N.

(** The token written to the record of identifier [i], and to no other. *)
Definition with_token (token : string) (i : value) (d : dict) : dict :=
  if value_eqb (get d "_id") i then <["session_token" := VStr token]> d else d.

(** [f"tok_{abs(hash(email + password))}"]. *)
Definition token_of (email password : string) : string :=
  "tok_" +:+ py_str (VInt (Z.abs (py_hash (email +:+ password)))).

(** What holds of every store the service reaches: identifiers are
    ObjectIds already given out, no collection has one twice, and the user
    records have string emails. *)
Definition users_have_email (m : Mongo.database) : Prop :=
  Forall (fun d => exists e, d !! "email" = Some (VStr e)) (Mongo.docs "user" m).

Definition store_inv (m : Mongo.database) : Prop :=
  ids_given m
  /\ (forall name, NoDup (ids_of name m))
  /\ users_have_email m.

(** The response of a successful login for the record [u] of identifier
    [i]. *)
Definition login_response (token : string) (u : dict) (i : value) : dict :=
  <["token" := VStr token]>
  (<["user" := VDict [("id", VStr (py_str i));
                      ("name", get u "name");
                      ("email", get u "email");
                      ("plan", get_or u "plan" (VStr "free"))]]> ∅).

(** ** Python values and the store client: basic facts *)

Section value_nested.
Variable P : value -> Prop.
Hypothesis HNone : P VNone.
Hypothesis HBool : forall b, P (VBool b).
Hypothesis HInt : forall n, P (VInt n).
Hypothesis HStr : forall s, P (VStr s).
Hypothesis HList : forall l, Forall P l -> P (VList l).
Hypothesis HDict : forall d, Forall (fun kv => P (snd kv)) d -> P (VDict d).
Hypothesis HOid : forall n, P (VOid n).
Hypothesis HDate : forall t, P (VDate t).

Fixpoint value_nested_ind (v : value) : P v :=
  match v with
  | VNone => HNone
  | VBool b => HBool b
  | VInt n => HInt n
  | VStr s => HStr s
  | VList l =>
      HList l ((fix go (l : list value) : Forall P l :=
                  match l with
                  | [] => List.Forall_nil P
                  | x :: l' => @List.Forall_cons _ P x l' (value_nested_ind x) (go l')
                  end) l)
  | VDict d =>
      HDict d ((fix go (d : list (string * value))
                  : Forall (fun kv => P (snd kv)) d :=
                  match d with
                  | [] => List.Forall_nil _
                  | (k, x) :: d' =>
                      @List.Forall_cons _ (fun kv => P (snd kv)) (k, x) d'
                                        (value_nested_ind x) (go d')
                  end) d)
  | VOid n => HOid n
  | VDate t => HDate t
  end.
End value_nested.

Lemma value_eqb_eq (a b : value) : value_eqb a b = true <-> a = b.
Proof.
  revert b. induction a as [| | | |l IH|d IH| |] using value_nested_ind;
    intros [] ; simpl; try (split; [discriminate|congruence]); try tauto.
  - rewrite Bool.eqb_true_iff. split; congruence.
  - rewrite Z.eqb_eq. split; congruence.
  - rewrite String.eqb_eq. split; congruence.
  - rename l0 into l2. revert l2.
    induction IH as [|x l Hx _ IHl]; intros [|y l2];
      try (split; [discriminate|congruence]); try tauto.
    rewrite andb_true_iff, Hx, IHl. split; [intros [-> H]|intros H; split]; congruence.
  - rename d0 into d2. revert d2.
    induction IH as [|[k x] d Hx _ IHd]; intros [|[k2 y] d2];
      try (split; [discriminate|congruence]); try tauto.
    rewrite !andb_true_iff, String.eqb_eq, Hx, IHd. simpl.
    split; [intros [[-> ->] H]|intros H; repeat split]; congruence.
  - rewrite N.eqb_eq. split; congruence.
  - rewrite Z.eqb_eq. split; congruence.
Qed.

Lemma value_eqb_refl (a : value) : value_eqb a a = true.
Proof. by apply value_eqb_eq. Qed.

Lemma value_eqb_neq (a b : value) : value_eqb a b = false <-> a <> b.
Proof.
  rewrite <- value_eqb_eq. destruct (value_eqb a b); split; congruence.
Qed.






Lemma contains_empty (s : string) : contains s EmptyString = true.
Proof. destruct s; reflexivity. Qed.

Lemma contains_in_empty (sub : string) :
  sub <> EmptyString -> contains EmptyString sub = false.
Proof. destruct sub; [done|reflexivity]. Qed.

Lemma lower_empty (s : string) : lower s = EmptyString <-> s = EmptyString.
Proof.
  split; [|by intros ->].
  intros H. destruct s as [|c s]; [done|]. by apply lower_nonempty in H.
Qed.

Lemma ascii_lower_nil : ascii_lower EmptyString = EmptyString.
Proof. reflexivity. Qed.

Lemma ascii_lower_nonempty (s : string) :
  s <> EmptyString -> ascii_lower s <> EmptyString.
Proof. by destruct s. Qed.

Lemma str_truthy_Some (o : option string) :
  str_truthy o = true <-> exists s, o = Some s /\ s <> EmptyString.
Proof.
  destruct o as [s|]; simpl.
  - rewrite negb_true_iff. split.
    + intros H. exists s. split; [done|]. intros ->. by rewrite String.eqb_refl in H.
    + intros (s' & [= <-] & Hne). by apply String.eqb_neq.
  - split; [done|]. by intros (s' & H & _).
Qed.

(** *** Filters *)

Lemma matches_forall (q : Mongo.query) (d : dict) :
  Mongo.matches q d = true <->
  forall k c, q !! k = Some c -> Mongo.criterion_holds c (d !! k) = true.
Proof.
  unfold Mongo.matches. rewrite forallb_forall. split.
  - intros H k c Hk. apply (H (k, c)).
    apply list_elem_of_In. by apply elem_of_map_to_list.
  - intros H [k c] Hin. simpl. apply H.
    apply elem_of_map_to_list. by apply list_elem_of_In.
Qed.

Lemma matches_empty (d : dict) : Mongo.matches ∅ d = true.
Proof. unfold Mongo.matches. by rewrite map_to_list_empty. Qed.

Lemma matches_singleton (k : string) (c : Mongo.criterion) (d : dict) :
  Mongo.matches {[ k := c ]} d = Mongo.criterion_holds c (d !! k).
Proof.
  unfold Mongo.matches. rewrite map_to_list_singleton. simpl. apply andb_true_r.
Qed.

Lemma field_matches_eq (o : option value) (v : value) :
  o = Some v -> Mongo.field_matches o v = true.
Proof. intros ->. simpl. by rewrite value_eqb_refl. Qed.

Lemma field_matches_str (o : option value) (s : string) :
  Mongo.field_matches o (VStr s) = true -> is_Some o.
Proof. destruct o; [eauto|discriminate]. Qed.

Lemma find_app (name : string) (q : Mongo.query) (m : Mongo.database) :
  Mongo.find name q m = List.filter (Mongo.matches q) (Mongo.docs name m).
Proof. reflexivity. Qed.

Lemma find_ext (name : string) (q : Mongo.query) (m : Mongo.database)
    (p : dict -> bool) :
  (forall d, Mongo.matches q d = p d) ->
  Mongo.find name q m = List.filter p (Mongo.docs name m).
Proof. intros H. unfold Mongo.find. by apply filter_ext. Qed.

Lemma docs_appended (name name' : string) (d : dict) (m : Mongo.database) :
  Mongo.docs name' (appended name d m) =
  if decide (name = name')
  then Mongo.docs name m ++ [<["_id" := VOid (Mongo.next_oid m)]> d]
  else Mongo.docs name' m.
Proof.
  unfold Mongo.docs at 1, appended. simpl. rewrite lookup_insert.
  by destruct (decide (name = name')).
Qed.

Lemma insert_one_fresh (name : string) (d : dict) (m : Mongo.database) :
  d !! "_id" = None ->
  Mongo.insert_one name d m = Some (VOid (Mongo.next_oid m), appended name d m).
Proof. intros H. unfold Mongo.insert_one. by rewrite H. Qed.

(** *** A matching record is found, and it is a true value *)


Lemma find_one_matches (name : string) (q : Mongo.query) (m : Mongo.database) (u : dict) :
  Mongo.find_one name q m = Some u ->
  u ∈ Mongo.docs name m /\ Mongo.matches q u = true.
Proof.
  unfold Mongo.find_one, Mongo.find. intros H.
  assert (In u (List.filter (Mongo.matches q) (Mongo.docs name m))) as Hu.
  { destruct (List.filter _ _); [discriminate|]. injection H as ->. by left. }
  apply filter_In in Hu as [Hu1 Hu2]. split; [|done]. by apply list_elem_of_In.
Qed.

Lemma find_one_None (name : string) (q : Mongo.query) (m : Mongo.database) :
  (forall d, d ∈ Mongo.docs name m -> Mongo.matches q d = false) ->
  Mongo.find_one name q m = None.
Proof.
  intros H. unfold Mongo.find_one, Mongo.find.
  destruct (List.filter (Mongo.matches q) (Mongo.docs name m)) as [|u l] eqn:E; [done|].
  assert (In u (List.filter (Mongo.matches q) (Mongo.docs name m))) as Hu
    by (rewrite E; by left).
  apply filter_In in Hu as [Hu1 Hu2]. apply list_elem_of_In in Hu1.
  rewrite (H u Hu1) in Hu2. discriminate.
Qed.

Lemma matched_string_field_truthy (k v : string) (u : dict) :
  Mongo.matches (field_is k v) u = true -> dict_truthy u = true.
Proof.
  unfold field_is. rewrite matches_singleton. simpl. intros H.
  apply field_matches_str in H as [x Hx].
  unfold dict_truthy. rewrite negb_true_iff, bool_decide_eq_false.
  intros ->. by rewrite lookup_empty in Hx.
Qed.

(** ** Signup and login *)


(** C5. Login with an email that no user record matches is refused with
    the 404 "User not found" (NotFound); login whose derived credential
    differs from the one stored in the record found is refused with the
    401 "Invalid credentials" (Unauthorized); both are client errors and
    both leave the store as it was, so no session token is written. *)
Theorem login_failures_leave_store (m : Mongo.database) (payload : LoginRequest) :
  (Mongo.find_one "user" (field_is "email" (login_email payload)) m = None ->
   login payload (Some m) = (inl (HTTPException 404 "User not found"), Some m))
  /\ (forall u,
        Mongo.find_one "user" (field_is "email" (login_email payload)) m = Some u ->
        get u "password_hash" <> VStr (password_hash_of (login_password payload)) ->
        login payload (Some m)
        = (inl (HTTPException 401 "Invalid credentials"), Some m))
  /\ client_error (HTTPException 404 "User not found") = true
  /\ client_error (HTTPException 401 "Invalid credentials") = true.
Proof.
  split; [|split; [|split; reflexivity]].
  - intros H. unfold login, bind, collection, find_one. simpl.
    unfold field_is in H. by rewrite H.
  - intros u H Hne. unfold login, bind, collection, find_one. simpl.
    pose proof (find_one_matches _ _ _ _ H) as [_ Hm].
    unfold field_is in H. rewrite H.
    rewrite (matched_string_field_truthy _ _ _ Hm). simpl.
    apply value_eqb_neq in Hne. by rewrite Hne.
Qed.

(** C10. Without a configured store ([db] is [None]) login raises the
    [TypeError] of subscripting [None], which nothing catches, where
    signup answers the 500 "Database unavailable". *)
Theorem login_without_store_unhandled (lp : LoginRequest) (sp : SignupRequest) :
  login lp None = (inl (TypeError "'NoneType' object is not subscriptable"), None)
  /\ signup sp None = (inl (HTTPException 500 "Database unavailable"), None).
Proof. split; reflexivity. Qed.

(** ** Documents are dictionaries of their model's fields *)

Lemma create_document_available {A : Type} `{BaseModel A}
    (name : string) (x : A) (m : Mongo.database) :
  model_dump x !! "_id" = None ->
  create_document name x (Some m)
  = (inr (py_str (VOid (Mongo.next_oid m))), Some (appended name (model_dump x) m)).
Proof.
  intros Hid. unfold create_document. by rewrite (insert_one_fresh _ _ _ Hid).
Qed.


Lemma Task_dump_no_id (x : Task.t) : Task.dump x !! "_id" = None.
Proof. reflexivity. Qed.

Lemma Checkin_dump_no_id (x : Checkin.t) : Checkin.dump x !! "_id" = None.
Proof. reflexivity. Qed.

Lemma Post_dump_no_id (x : Post.t) : Post.dump x !! "_id" = None.
Proof. reflexivity. Qed.

Lemma Enrollment_dump_no_id (x : Enrollment.t) : Enrollment.dump x !! "_id" = None.
Proof. reflexivity. Qed.

Lemma ContentItem_dump_no_id (x : ContentItem.t) : ContentItem.dump x !! "_id" = None.
Proof. reflexivity. Qed.

(** ** Squads *)

Lemma with_owner_members (squad : Squad.t) :
  Squad.owner_id squad ∈ Squad.members (with_owner squad)
  /\ Squad.owner_id (with_owner squad) = Squad.owner_id squad.
Proof.
  unfold with_owner.
  destruct (existsb _ _) eqn:E; simpl.
  - split; [|done]. apply existsb_exists in E as (x & Hx & Heq).
    apply String.eqb_eq in Heq as ->. by apply list_elem_of_In.
  - split; [|done]. apply elem_of_app. right. by apply list_elem_of_singleton.
Qed.


(** ** Feedback *)

(** C8. A feedback body whose rating is present and below 1 or above 5 is
    answered with the validation error naming [rating] (a 422, a client
    error); the handler does not run and the store is what it was. *)
Theorem feedback_rating_out_of_range_rejected
    (db : handle) (fb : Feedback.t) (r : Z) :
  Feedback.rating fb = Some r ->
  r < 1 \/ 5 < r ->
  with_body submit_feedback fb db = (inl (RequestValidationError "rating"), db)
  /\ client_error (RequestValidationError "rating") = true.
Proof.
  intros Hr Hout. split; [|reflexivity].
  unfold with_body. simpl. unfold Feedback.check. rewrite Hr.
  replace ((1 <=? r) && (r <=? 5)) with false; [done|].
  symmetry. apply andb_false_iff. destruct Hout; [left|right]; lia.
Qed.

Lemma feedback_in_range_stored (m : Mongo.database) (fb : Feedback.t) :
  (forall r, Feedback.rating fb = Some r -> 1 <= r <= 5) ->
  with_body submit_feedback fb (Some m)
  = (inr (id_response (py_str (VOid (Mongo.next_oid m)))),
     Some (appended "feedback" (Feedback.dump fb) m)).
Proof.
  intros Hr. unfold with_body. simpl. unfold Feedback.check.
  destruct (Feedback.rating fb) as [r|] eqn:E.
  - specialize (Hr r eq_refl).
    replace ((1 <=? r) && (r <=? 5)) with true
      by (symmetry; apply andb_true_iff; split; lia).
    unfold submit_feedback, bind.
    by rewrite (create_document_available (H := Feedback_model)).
  - unfold submit_feedback, bind.
    by rewrite (create_document_available (H := Feedback_model)).
Qed.

(** ** The library *)

Lemma matches_insert (k : string) (c : Mongo.criterion) (q : Mongo.query) (d : dict) :
  q !! k = None ->
  Mongo.matches (<[k := c]> q) d = Mongo.criterion_holds c (d !! k) && Mongo.matches q d.
Proof.
  intros Hk. apply eq_true_iff_eq.
  rewrite andb_true_iff, !matches_forall. split.
  - intros H. split.
    + apply H. apply lookup_insert_eq.
    + intros k' c' Hk'. apply H. rewrite lookup_insert_ne; [done|congruence].
  - intros [H1 H2] k' c' Hk'. apply lookup_insert_Some in Hk' as [[<- <-]|[_ Hk']].
    + done.
    + by apply H2.
Qed.

Lemma built_filter_matches (k1 k2 : string) (p1 p2 : option string) (d : dict) :
  k1 <> k2 ->
  Mongo.matches
    (let filt : Mongo.query := ∅ in
     let filt :=
       if str_truthy p1 then <[k1 := Mongo.Equals (opt_str p1)]> filt else filt in
     if str_truthy p2 then <[k2 := Mongo.Equals (opt_str p2)]> filt else filt) d
  = eq_filter k1 p1 d && eq_filter k2 p2 d.
Proof.
  intros Hne. unfold eq_filter. cbv zeta.
  destruct (str_truthy p1), (str_truthy p2);
    rewrite ?matches_insert, ?matches_empty, ?andb_true_r; simpl;
    rewrite ?andb_true_r; try done.
  - apply andb_comm.
  - by rewrite lookup_insert_ne.
Qed.

Lemma library_filter_matches (category tier : option string) (d : dict) :
  Mongo.matches
    (let filt : Mongo.query := ∅ in
     let filt :=
       if str_truthy category
       then <["category" := Mongo.Equals (opt_str category)]> filt else filt in
     if str_truthy tier
     then <["tier" := Mongo.Equals (opt_str tier)]> filt else filt) d
  = library_matches category tier d.
Proof. by apply built_filter_matches. Qed.

Lemma comprehension_raises (cond : dict -> res bool) (items : list dict) (i : dict) (e : error) :
  i ∈ items -> cond i = inl e ->
  exists e', comprehension cond items = inl e'.
Proof.
  intros Hin Hi. induction items as [|j l IH]; [by apply elem_of_nil in Hin|].
  simpl. apply elem_of_cons in Hin as [<-|Hin].
  - rewrite Hi. simpl. eauto.
  - destruct (cond j) as [e'|b]; simpl; [eauto|].
    destruct (IH Hin) as [e' ->]. simpl. eauto.
Qed.

Lemma comprehension_subseteq (cond : dict -> res bool) (items r : list dict) :
  comprehension cond items = inr r -> r ⊆ items.
Proof.
  revert r. induction items as [|i l IH]; simpl; intros r Hc.
  - by injection Hc as <-.
  - destruct (cond i) as [|b]; [discriminate|]. simpl in Hc.
    destruct (comprehension cond l) as [|r']; [discriminate|]. simpl in Hc.
    injection Hc as <-. specialize (IH _ eq_refl). intros x Hx.
    destruct b.
    + apply elem_of_cons in Hx as [->|Hx]; [by left|right; by apply IH].
    + right. by apply IH.
Qed.

Lemma comprehension_filter (cond : dict -> res bool) (p : dict -> bool) (items : list dict) :
  Forall (fun i => cond i = inr (p i)) items ->
  comprehension cond items = inr (List.filter p items).
Proof.
  induction 1 as [|i l Hi _ IH]; simpl; [done|].
  rewrite Hi, IH. simpl. by destruct (p i).
Qed.


Lemma search_hit_texts (q : string) (i : dict) :
  is_Some (text_of i "title") -> is_Some (text_of i "description") ->
  search_hit (lower q) i = inr (search_matches q i).
Proof.
  unfold search_hit, search_matches, get_or, text_of.
  intros [t Ht] [d Hd].
  destruct (i !! "title") as [[]|]; try discriminate;
    destruct (i !! "description") as [[]|]; try discriminate; simpl;
    rewrite ?lower_nil;
    match goal with |- (if ?b then _ else _) = _ => by destruct b end.
Qed.

Lemma list_content_run (m : Mongo.database) (category q tier : option string) :
  list_content category q tier (Some m)
  = let items := List.filter (library_matches category tier)
                             (Mongo.docs "contentitem" m) in
    (match (if str_truthy q
            then comprehension (search_hit (lower (default EmptyString q))) items
            else inr items) with
     | inl e => inl e
     | inr r => inr (map (delete "_id") r)
     end, Some m).
Proof.
  unfold list_content, bind, get_documents. cbv zeta.
  rewrite (find_ext _ _ _ (library_matches category tier))
    by (intros d; apply library_filter_matches).
  destruct (str_truthy q); [|done].
  unfold lift. by destruct (comprehension _ _).
Qed.


(** Where every item that passes the filters has strings (or nothing) for
    title and description, the search returns exactly the items in which
    the term occurs, without their [_id]. *)
Lemma library_search_exact
    (m : Mongo.database) (category tier : option string) (q : string) :
  q <> EmptyString ->
  Forall (fun i => is_Some (text_of i "title") /\ is_Some (text_of i "description"))
         (List.filter (library_matches category tier) (Mongo.docs "contentitem" m)) ->
  list_content category (Some q) tier (Some m)
  = (inr (map (delete "_id")
            (List.filter (search_matches q)
               (List.filter (library_matches category tier)
                            (Mongo.docs "contentitem" m)))),
     Some m).
Proof.
  intros Hq Hall. rewrite list_content_run. cbv zeta.
  replace (str_truthy (Some q)) with true
    by (symmetry; apply str_truthy_Some; eauto).
  simpl. rewrite (comprehension_filter _ (search_matches q)); [done|].
  eapply Forall_impl; [exact Hall|]. intros i [H1 H2]. by apply search_hit_texts.
Qed.

(** ** Identifiers in responses *)

Lemma assigned_ids_docs (m : Mongo.database) (name : string) (d : dict) :
  assigned_ids m = true -> d ∈ Mongo.docs name m -> has_oid d = true.
Proof.
  unfold assigned_ids, Mongo.docs. rewrite forallb_forall. intros H Hd.
  destruct (Mongo.colls m !! name) as [l|] eqn:E; simpl in Hd.
  - specialize (H (name, l)). simpl in H. rewrite forallb_forall in H.
    apply H; [|by apply list_elem_of_In].
    apply list_elem_of_In. by apply elem_of_map_to_list.
  - by apply elem_of_nil in Hd.
Qed.

Lemma assigned_ids_intro (m : Mongo.database) :
  (forall name d, d ∈ Mongo.docs name m -> has_oid d = true) -> assigned_ids m = true.
Proof.
  intros H. unfold assigned_ids. apply forallb_forall. intros [name l] Hin. simpl.
  apply list_elem_of_In, elem_of_map_to_list in Hin.
  apply forallb_forall. intros d Hd. apply (H name).
  unfold Mongo.docs. rewrite Hin. simpl. by apply list_elem_of_In.
Qed.

(** The store's invariant: fresh inserts and the session-token update keep
    every document's ObjectId, and the empty store has it. *)
Lemma appended_assigned_ids (name : string) (d : dict) (m : Mongo.database) :
  assigned_ids m = true -> assigned_ids (appended name d m) = true.
Proof.
  intros H. apply assigned_ids_intro. intros name' d' Hd'.
  rewrite docs_appended in Hd'. destruct (decide (name = name')) as [<-|Hne].
  - apply elem_of_app in Hd' as [Hd'|Hd'].
    + by apply (assigned_ids_docs m name).
    + apply list_elem_of_singleton in Hd' as ->. unfold has_oid.
      by rewrite lookup_insert_eq.
  - by apply (assigned_ids_docs m name').
Qed.

Lemma update_first_elem (p : dict -> bool) (f : dict -> dict) (l : list dict) (d : dict) :
  d ∈ Mongo.update_first p f l -> d ∈ l \/ exists d0, d0 ∈ l /\ d = f d0.
Proof.
  induction l as [|x l IH]; simpl; [by left|].
  destruct (p x).
  - intros [->|H]%elem_of_cons.
    + right. exists x. split; [by left|done].
    + left. by right.
  - intros [->|H]%elem_of_cons.
    + left. by left.
    + destruct (IH H) as [H'|(d0 & H1 & H2)].
      * left. by right.
      * right. exists d0. split; [by right|done].
Qed.

Lemma session_token_assigned_ids (q : Mongo.query) (token : string) (m : Mongo.database) :
  assigned_ids m = true ->
  assigned_ids (Mongo.update_one "user" q {[ "session_token" := VStr token ]} m) = true.
Proof.
  intros H. apply assigned_ids_intro. intros name d Hd.
  unfold Mongo.update_one, Mongo.set_docs, Mongo.docs in Hd. simpl in Hd.
  rewrite lookup_insert in Hd. destruct (decide ("user" = name)) as [<-|Hne].
  - simpl in Hd. apply update_first_elem in Hd as [Hd|(d0 & Hd0 & ->)].
    + by apply (assigned_ids_docs m "user").
    + pose proof (assigned_ids_docs m "user" d0 H Hd0) as H0.
      unfold has_oid in *. rewrite lookup_union_r; [done|].
      apply lookup_singleton_ne. done.
  - by apply (assigned_ids_docs m name).
Qed.

Lemma rename_id_shape (d : dict) :
  has_oid d = true -> no_internal_id (rename_id d) /\ string_id (rename_id d).
Proof.
  unfold has_oid, rename_id, get, no_internal_id, string_id.
  destruct (d !! "_id") as [[]|] eqn:E; try discriminate. intros _. simpl.
  split.
  - rewrite lookup_insert_ne by done. apply lookup_delete_eq.
  - eexists. apply lookup_insert_eq.
Qed.

Lemma get_documents_from (name : string) (q : Mongo.query) (limit : option Z)
    (db db' : handle) (l : list dict) :
  get_documents name q limit db = (inr l, db') ->
  db' = db /\ exists m, db = Some m /\ l ⊆ Mongo.docs name m.
Proof.
  unfold get_documents. destruct db as [m|]; [|discriminate].
  intros [= <- <-]. split; [done|]. exists m. split; [done|].
  assert (Mongo.find name q m ⊆ Mongo.docs name m) as Hsub.
  { intros d Hd. apply list_elem_of_In in Hd. apply filter_In in Hd as [Hd _].
    by apply list_elem_of_In. }
  destruct limit; [|done]. etrans; [apply subseteq_take|done].
Qed.

Lemma renamed_records (name : string) (db : handle) (l : list dict) :
  handle_ids db = true ->
  (exists m, db = Some m /\ l ⊆ Mongo.docs name m) ->
  Forall (fun d => no_internal_id d /\ string_id d) (map rename_id l).
Proof.
  intros Hids (m & -> & Hsub). apply Forall_fmap, Forall_forall. intros d Hd.
  apply rename_id_shape. apply (assigned_ids_docs m name); [done|]. by apply Hsub.
Qed.

Lemma stripped_records (name : string) (db : handle) (l : list dict) :
  (exists m, db = Some m /\ l ⊆ Mongo.docs name m) ->
  Forall (fun r => no_internal_id r /\ stripped_from name db r) (map (delete "_id") l).
Proof.
  intros (m & -> & Hsub). apply Forall_fmap, Forall_forall. intros d Hd. split.
  - apply lookup_delete_eq.
  - exists m, d. split; [done|]. split; [by apply Hsub|done].
Qed.

Lemma bind_inr {A B : Type} (c : Handler A) (k : A -> Handler B)
    (db db' : handle) (b : B) :
  bind c k db = (inr b, db') ->
  exists a db1, c db = (inr a, db1) /\ k a db1 = (inr b, db').
Proof.
  unfold bind. destruct (c db) as [[e|a] db1]; [discriminate|]. eauto.
Qed.

Ltac listed H :=
  apply bind_inr in H as (?l & ?db1 & ?Hget & ?Hret);
  match goal with
  | Hr : ret _ _ = _ |- _ => unfold ret in Hr; injection Hr as <- <-
  end;
  match goal with
  | Hg : get_documents _ _ _ _ = _ |- _ =>
      apply get_documents_from in Hg as [-> ?Hfrom]
  end.

Lemma renamed_from_records (name : string) (db : handle) (l : list dict) :
  handle_ids db = true ->
  (exists m, db = Some m /\ l ⊆ Mongo.docs name m) ->
  Forall (fun r => no_internal_id r /\ string_id r /\ renamed_from name db r)
         (map rename_id l).
Proof.
  intros Hids (m & -> & Hsub). apply Forall_fmap, Forall_forall. intros d Hd.
  assert (has_oid d = true) as Hoid
    by (apply (assigned_ids_docs m name); [done|by apply Hsub]).
  destruct (rename_id_shape d Hoid) as [H1 H2]. split; [done|]. split; [done|].
  unfold has_oid in Hoid. destruct (d !! "_id") as [[]|] eqn:E; try discriminate.
  exists m, d, n. split; [done|]. split; [by apply Hsub|]. split; [done|].
  unfold rename_id, get. rewrite E. simpl. split; [|split].
  - rewrite lookup_insert_ne by done. apply lookup_delete_eq.
  - apply lookup_insert_eq.
  - intros k Hk1 Hk2. rewrite lookup_insert_ne by done. by rewrite lookup_delete_ne.
Qed.

(** C6. Against a store whose documents carry the ObjectId the store
    assigned, no record that a read handler returns has the [_id] field.
    The records of GET /library and GET /programs are stored documents with
    [_id] removed and nothing added.  Each record of GET /tasks, /checkins,
    /squads, /posts and /enrollments is a stored document of the collection
    with the string form of that document's identifier under [id] in the
    place of [_id] and every other field as stored.  The login response has
    no [_id] and a user object of exactly the fields [id], the string form
    of the identifier of the record found, [name], [email] and [plan], read
    from that record. *)
Theorem responses_hide_internal_id (db : handle) :
  handle_ids db = true ->
  (forall category q tier r db',
      list_content category q tier db = (inr r, db') ->
      Forall (fun d => no_internal_id d /\ stripped_from "contentitem" db d) r)
  /\ (forall tier r db',
        list_programs tier db = (inr r, db') ->
        Forall (fun d => no_internal_id d /\ stripped_from "program" db d) r)
  /\ (forall user_id week r db',
        list_tasks user_id week db = (inr r, db') ->
        Forall (fun d => no_internal_id d /\ string_id d
                         /\ renamed_from "task" db d) r)
  /\ (forall user_id limit r db',
        list_checkins user_id limit db = (inr r, db') ->
        Forall (fun d => no_internal_id d /\ string_id d
                         /\ renamed_from "checkin" db d) r)
  /\ (forall member_id r db',
        list_squads member_id db = (inr r, db') ->
        Forall (fun d => no_internal_id d /\ string_id d
                         /\ renamed_from "squad" db d) r)
  /\ (forall squad_id user_id limit r db',
        list_posts squad_id user_id limit db = (inr r, db') ->
        Forall (fun d => no_internal_id d /\ string_id d
                         /\ renamed_from "post" db d) r)
  /\ (forall user_id r db',
        list_enrollments user_id db = (inr r, db') ->
        Forall (fun d => no_internal_id d /\ string_id d
                         /\ renamed_from "enrollment" db d) r)
  /\ (forall payload r db',
        login payload db = (inr r, db') ->
        no_internal_id r
        /\ exists m u n,
             db = Some m
             /\ Mongo.find_one "user" (field_is "email" (login_email payload)) m
                = Some u
             /\ u !! "_id" = Some (VOid n)
             /\ r !! "user"
                = Some (VDict [("id", VStr (py_str (VOid n)));
                               ("name", get u "name");
                               ("email", get u "email");
                               ("plan", get_or u "plan" (VStr "free"))])).
Proof.
  intros Hids. repeat apply conj.
  - intros category q tier r db' H. unfold list_content in H. cbv zeta in H.
    apply bind_inr in H as (items & db1 & Hget & H).
    apply get_documents_from in Hget as [-> (m & -> & Hsub)].
    apply bind_inr in H as (items' & db2 & Hsearch & H).
    injection H as <- <-.
    apply stripped_records. exists m. split; [done|].
    destruct (str_truthy q).
    + unfold lift in Hsearch. injection Hsearch as Hc <-.
      etrans; [|exact Hsub]. by eapply comprehension_subseteq.
    + by injection Hsearch as <- <-.
  - intros tier r db' H. unfold list_programs in H. cbv zeta in H. listed H.
    by apply stripped_records.
  - intros user_id week r db' H. unfold list_tasks in H. cbv zeta in H. listed H.
    by apply (renamed_from_records "task" db).
  - intros user_id limit r db' H. unfold list_checkins in H. cbv zeta in H. listed H.
    by apply (renamed_from_records "checkin" db).
  - intros member_id r db' H. unfold list_squads in H. cbv zeta in H. listed H.
    by apply (renamed_from_records "squad" db).
  - intros squad_id user_id limit r db' H. unfold list_posts in H. cbv zeta in H.
    listed H. by apply (renamed_from_records "post" db).
  - intros user_id r db' H. unfold list_enrollments in H. listed H.
    by apply (renamed_from_records "enrollment" db).
  - intros payload r db' H.
    unfold login, bind, collection, find_one, update_one, lift, getitem, ret in H.
    destruct db as [m|]; [|discriminate]. simpl in H.
    destruct (Mongo.find_one _ _ m) as [u|] eqn:Hfind; [|discriminate].
    destruct (dict_truthy u); [|discriminate]. simpl in H.
    destruct (value_eqb _ _); [|discriminate]. simpl in H.
    pose proof (find_one_matches _ _ _ _ Hfind) as [Hu _].
    pose proof (assigned_ids_docs m "user" u Hids Hu) as Hoid.
    unfold has_oid in Hoid.
    destruct (u !! "_id") as [[]|] eqn:Hid; try discriminate. simpl in H.
    injection H as <- <-. split; [reflexivity|].
    exists m, u, n. split; [done|]. split; [exact Hfind|]. split; [done|].
    reflexivity.
Qed.

(** *** The stores the service reaches keep the identifiers *)

Lemma read_only_bind {A B : Type} (c : Handler A) (k : A -> Handler B) :
  read_only c -> (forall a, read_only (k a)) -> read_only (bind c k).
Proof.
  intros Hc Hk db. unfold bind. specialize (Hc db).
  destruct (c db) as [[e|a] db1]; simpl in *; [done|].
  rewrite (Hk a db1). done.
Qed.

Lemma read_only_ret {A : Type} (a : A) : read_only (ret a).
Proof. by intros db. Qed.

Lemma read_only_lift {A : Type} (r : res A) : read_only (lift r).
Proof. by intros db. Qed.

Lemma read_only_get_documents (name : string) (q : Mongo.query) (limit : option Z) :
  read_only (get_documents name q limit).
Proof. intros [m|]; reflexivity. Qed.

Create HintDb handlers.
#[local] Hint Resolve read_only_ret read_only_lift read_only_get_documents : handlers.

Lemma list_handlers_read_only :
  (forall category q tier, read_only (list_content category q tier))
  /\ (forall tier, read_only (list_programs tier))
  /\ (forall user_id week, read_only (list_tasks user_id week))
  /\ (forall user_id limit, read_only (list_checkins user_id limit))
  /\ (forall member_id, read_only (list_squads member_id))
  /\ (forall squad_id user_id limit, read_only (list_posts squad_id user_id limit))
  /\ (forall user_id, read_only (list_enrollments user_id)).
Proof.
  repeat apply conj; intros;
    repeat (apply read_only_bind; [|intros]);
    try destruct (str_truthy _); auto with handlers.
Qed.

Lemma created_ids {A : Type} `{BaseModel A} (name : string) (x : A) (db : handle) :
  model_dump x !! "_id" = None ->
  handle_ids db = true ->
  handle_ids (snd (bind (create_document name x)
                        (fun new_id => ret (id_response new_id)) db)) = true.
Proof.
  intros Hid Hdb. unfold bind. destruct db as [m|]; [|done].
  rewrite (create_document_available _ _ _ Hid). simpl.
  by apply appended_assigned_ids.
Qed.

Lemma signup_ids (payload : SignupRequest) (db : handle) :
  handle_ids db = true -> handle_ids (snd (signup payload db)) = true.
Proof.
  intros Hdb. destruct db as [m|]; [|done].
  unfold signup, bind, the_db, collection, find_one. simpl.
  destruct (opt_truthy _); [done|].
  unfold lift, User_check. simpl.
  destruct (valid_email _); [|done].
  rewrite insert_one_fresh by reflexivity. simpl.
  by apply appended_assigned_ids.
Qed.

Lemma login_ids (payload : LoginRequest) (db : handle) :
  handle_ids db = true -> handle_ids (snd (login payload db)) = true.
Proof.
  intros Hdb. destruct db as [m|]; [|done].
  unfold login, bind, collection, find_one, update_one, lift, getitem, ret. simpl.
  destruct (Mongo.find_one _ _ m) as [u|]; [|done].
  destruct (dict_truthy u); [|done]. simpl.
  destruct (value_eqb _ _); [|done]. simpl.
  destruct (u !! "_id"); [|done]. simpl.
  by apply session_token_assigned_ids.
Qed.

Lemma create_handlers_ids (db : handle) :
  handle_ids db = true ->
  (forall x, handle_ids (snd (add_content x db)) = true)
  /\ (forall x, handle_ids (snd (submit_task x db)) = true)
  /\ (forall x, handle_ids (snd (create_checkin x db)) = true)
  /\ (forall x, handle_ids (snd (create_squad x db)) = true)
  /\ (forall x, handle_ids (snd (create_post x db)) = true)
  /\ (forall x, handle_ids (snd (create_program x db)) = true)
  /\ (forall x, handle_ids (snd (enroll_user x db)) = true)
  /\ (forall x, handle_ids (snd (submit_feedback x db)) = true).
Proof.
  intros Hdb. repeat apply conj; intros x.
  - unfold add_content.
    exact (created_ids (H := ContentItem_model) "contentitem" x db eq_refl Hdb).
  - unfold submit_task.
    exact (created_ids (H := Task_model) "task" x db eq_refl Hdb).
  - unfold create_checkin.
    exact (created_ids (H := Checkin_model) "checkin" x db eq_refl Hdb).
  - unfold create_squad. cbv zeta.
    exact (created_ids (H := Squad_model) "squad" (with_owner x) db eq_refl Hdb).
  - unfold create_post.
    exact (created_ids (H := Post_model) "post" x db eq_refl Hdb).
  - unfold create_program.
    exact (created_ids (H := Program_model) "program" x db eq_refl Hdb).
  - unfold enroll_user.
    exact (created_ids (H := Enrollment_model) "enrollment" x db eq_refl Hdb).
  - unfold submit_feedback.
    exact (created_ids (H := Feedback_model) "feedback" x db eq_refl Hdb).
Qed.

Lemma with_body_inr {A B : Type} (M : BaseModel A) (h : A -> Handler B) (x : A) :
  validate x = inr x -> with_body h x = h x.
Proof. intros Hv. unfold with_body. by rewrite Hv. Qed.

Lemma after_ids (r : request) (db : handle) :
  handle_ids db = true -> handle_ids (after r db) = true.
Proof.
  intros Hdb.
  destruct list_handlers_read_only as (Hl1 & Hl2 & Hl3 & Hl4 & Hl5 & Hl6 & Hl7).
  destruct (create_handlers_ids db Hdb)
    as (Hc1 & Hc2 & Hc3 & Hc4 & Hc5 & Hc6 & Hc7 & Hc8).
  destruct r; unfold after.
  - rewrite (with_body_inr SignupRequest_model) by reflexivity. by apply signup_ids.
  - rewrite (with_body_inr LoginRequest_model) by reflexivity. by apply login_ids.
  - by rewrite Hl1.
  - rewrite (with_body_inr ContentItem_model) by reflexivity. apply Hc1.
  - rewrite (with_body_inr Task_model) by reflexivity. apply Hc2.
  - by rewrite Hl3.
  - rewrite (with_body_inr Checkin_model) by reflexivity. apply Hc3.
  - by rewrite Hl4.
  - rewrite (with_body_inr Squad_model) by reflexivity. apply Hc4.
  - by rewrite Hl5.
  - rewrite (with_body_inr Post_model) by reflexivity. apply Hc5.
  - by rewrite Hl6.
  - rewrite (with_body_inr Program_model) by reflexivity. apply Hc6.
  - by rewrite Hl2.
  - rewrite (with_body_inr Enrollment_model) by reflexivity. apply Hc7.
  - by rewrite Hl7.
  - unfold with_body. change (validate feedback) with (Feedback.check feedback).
    unfold Feedback.check. destruct (Feedback.rating feedback) as [n|].
    + destruct ((1 <=? n) && (n <=? 5)); [apply Hc8|exact Hdb].
    + apply Hc8.
Qed.

Lemma reachable_ids (db : handle) : reachable db -> handle_ids db = true.
Proof.
  induction 1 as [|r db _ IH]; [reflexivity|]. by apply after_ids.
Qed.

(** ** Create, then list *)

Lemma find_appended_fresh (name : string) (q : Mongo.query) (d : dict) (m : Mongo.database) :
  Mongo.find name q m = [] ->
  Mongo.matches q (<["_id" := VOid (Mongo.next_oid m)]> d) = true ->
  Mongo.find name q (appended name d m) = [<["_id" := VOid (Mongo.next_oid m)]> d].
Proof.
  intros Hnone Hm. unfold Mongo.find in *. rewrite docs_appended.
  rewrite decide_True by done. rewrite List.filter_app, Hnone. simpl. by rewrite Hm.
Qed.

Lemma rename_id_fresh (d : dict) (n : N) :
  d !! "_id" = None ->
  rename_id (<["_id" := VOid n]> d) = <["id" := VStr (py_str (VOid n))]> d.
Proof.
  intros Hd. unfold rename_id, get. rewrite lookup_insert_eq. simpl.
  by rewrite delete_insert_eq, delete_id.
Qed.

Lemma with_owner_dump (x : Squad.t) : Squad.dump (with_owner x) = returned (a_squad x).
Proof.
  unfold with_owner, returned.
  destruct (existsb _ _) eqn:E; simpl.
  - rewrite bool_decide_eq_true_2; [done|].
    apply existsb_exists in E as (y & Hy & Heq).
    apply String.eqb_eq in Heq as ->. by apply list_elem_of_In.
  - rewrite bool_decide_eq_false_2; [reflexivity|].
    intros Hin. apply list_elem_of_In in Hin.
    assert (existsb (String.eqb (Squad.owner_id x)) (Squad.members x) = true) as Ht.
    { apply existsb_exists. exists (Squad.owner_id x). split; [done|].
      apply String.eqb_refl. }
    congruence.
Qed.

Lemma str_list_member (owner : string) (members : list string) :
  owner ∈ members -> existsb (fun x => value_eqb x (VStr owner)) (map VStr members) = true.
Proof.
  intros Hin. apply existsb_exists. exists (VStr owner). split.
  - apply in_map. by apply list_elem_of_In.
  - apply value_eqb_refl.
Qed.

Lemma listed_after_create (name : string) (d : dict) (q : Mongo.query)
    (limit : option Z) (m : Mongo.database) :
  d !! "_id" = None ->
  Mongo.find name q m = [] ->
  Mongo.matches q (<["_id" := VOid (Mongo.next_oid m)]> d) = true ->
  match limit with Some n => 1 <= n | None => True end ->
  bind (get_documents name q limit) (fun docs => ret (map rename_id docs))
       (Some (appended name d m))
  = (inr [<["id" := VStr (py_str (VOid (Mongo.next_oid m)))]> d],
     Some (appended name d m)).
Proof.
  intros Hid Hnone Hm Hlim. unfold bind, get_documents, ret.
  rewrite (find_appended_fresh _ _ _ _ Hnone Hm).
  assert (match limit with
          | Some n => take (Z.to_nat n) [<["_id" := VOid (Mongo.next_oid m)]> d]
          | None => [<["_id" := VOid (Mongo.next_oid m)]> d]
          end = [<["_id" := VOid (Mongo.next_oid m)]> d]) as ->.
  { destruct limit as [n|]; [|done]. apply take_ge. simpl. lia. }
  simpl. by rewrite rename_id_fresh.
Qed.

Lemma returned_is_submitted (e : entity) :
  (forall x, e = a_squad x -> Squad.owner_id x ∈ Squad.members x) ->
  returned e = submitted e.
Proof.
  destruct e as [x|x|x|x|x]; try reflexivity. intros H. simpl.
  by rewrite bool_decide_eq_true_2 by by apply H.
Qed.

(** C2, as amended. For a task, a check-in, an enrollment, a post whose
    [user_id] is not empty and a squad whose owner is not empty: against
    an available store that holds no record of the collection matching the
    key, create followed by the list filtered on the key returns exactly
    one record, made of the string [id] that create returned and of the
    submitted fields, except that a squad's member list comes back with
    the owner appended when the caller had left it out. *)
Theorem create_then_list_round_trip (m : Mongo.database) (e : entity) :
  key_usable e ->
  Mongo.find (home e) (key_query e) m = [] ->
  exists new_id m',
    create e (Some m) = (inr (id_response new_id), Some m')
    /\ list_by_key e (Some m')
       = (inr [<["id" := VStr new_id]> (returned e)], Some m').
Proof.
  intros Hkey Hnone. exists (py_str (VOid (Mongo.next_oid m))).
  destruct e as [x|x|x|x|x]; [simpl in *..|rewrite <- with_owner_dump; simpl in *].
  - exists (appended "task" (Task.dump x) m). split.
    + unfold submit_task, bind.
      by rewrite (create_document_available (H := Task_model)).
    + unfold list_tasks. simpl. apply listed_after_create; try done.
      unfold field_is. rewrite matches_singleton. by apply field_matches_eq.
  - exists (appended "checkin" (Checkin.dump x) m). split.
    + unfold create_checkin, bind.
      by rewrite (create_document_available (H := Checkin_model)).
    + unfold list_checkins. simpl. apply listed_after_create; try done.
      unfold field_is. rewrite matches_singleton. by apply field_matches_eq.
  - exists (appended "post" (Post.dump x) m). split.
    + unfold create_post, bind.
      by rewrite (create_document_available (H := Post_model)).
    + unfold list_posts. cbv zeta.
      replace (str_truthy (Some (Post.user_id x))) with true
        by (symmetry; apply str_truthy_Some; eauto).
      simpl. rewrite insert_empty. apply listed_after_create; try done.
      unfold field_is. rewrite matches_singleton. by apply field_matches_eq.
  - exists (appended "enrollment" (Enrollment.dump x) m). split.
    + unfold enroll_user, bind.
      by rewrite (create_document_available (H := Enrollment_model)).
    + unfold list_enrollments. apply listed_after_create; try done.
      unfold field_is. rewrite matches_singleton. by apply field_matches_eq.
  - exists (appended "squad" (Squad.dump (with_owner x)) m). split.
    + unfold create_squad, bind. cbv zeta.
      by rewrite (create_document_available (H := Squad_model)).
    + unfold list_squads. cbv zeta.
      replace (str_truthy (Some (Squad.owner_id x))) with true
        by (symmetry; apply str_truthy_Some; eauto).
      simpl opt_str. apply listed_after_create; try done.
      rewrite matches_singleton.
      change ((<["_id" := VOid (Mongo.next_oid m)]> (Squad.dump (with_owner x)))
                !! "members")
        with (Some (str_list (Squad.members (with_owner x)))).
      simpl. rewrite orb_false_r.
      apply str_list_member. apply with_owner_members.
Qed.

(** ** Limits *)

Lemma list_checkins_run (m : Mongo.database) (user_id : string) (limit : option Z) :
  list_checkins user_id limit (Some m)
  = (inr (map rename_id
            (take (Z.to_nat (default 30 limit))
                  (Mongo.find "checkin" (field_is "user_id" user_id) m))),
     Some m).
Proof. reflexivity. Qed.

Lemma list_posts_run (m : Mongo.database) (squad_id user_id : option string)
    (limit : option Z) :
  list_posts squad_id user_id limit (Some m)
  = (inr (map rename_id
            (take (Z.to_nat (default 50 limit))
                  (List.filter (posts_match squad_id user_id) (Mongo.docs "post" m)))),
     Some m).
Proof.
  unfold list_posts, bind, get_documents, ret. cbv zeta.
  rewrite (find_ext _ _ _ (posts_match squad_id user_id)); [done|].
  intros d. by apply (built_filter_matches "squad_id" "user_id").
Qed.

Lemma limited_length (f : dict -> dict) (n : Z) (l : list dict) :
  0 <= n -> Z.of_nat (length (map f (take (Z.to_nat n) l))) <= n.
Proof.
  intros Hn. rewrite length_map, length_take. lia.
Qed.

(** C1, as amended. On the two list endpoints that take a limit, a call
    with limit N, N not negative, returns at most N records.  A call that
    leaves the limit out runs with the handler's default, 30 for GET
    /checkins and 50 for GET /posts: it returns the first 30 (50) matching
    records, which are all of them only when no more than 30 (50) match. *)
Theorem list_limit_bounds (m : Mongo.database) (N : Z) :
  0 <= N ->
  (forall user_id db docs db',
      list_checkins user_id (Some N) db = (inr docs, db') ->
      Z.of_nat (length docs) <= N)
  /\ (forall squad_id user_id db docs db',
        list_posts squad_id user_id (Some N) db = (inr docs, db') ->
        Z.of_nat (length docs) <= N)
  /\ (forall user_id,
        let matching := Mongo.find "checkin" (field_is "user_id" user_id) m in
        list_checkins user_id None (Some m)
        = (inr (map rename_id (take 30 matching)), Some m)
        /\ ((length matching <= 30)%nat -> take 30 matching = matching))
  /\ (forall squad_id user_id,
        let matching :=
          List.filter (posts_match squad_id user_id) (Mongo.docs "post" m) in
        list_posts squad_id user_id None (Some m)
        = (inr (map rename_id (take 50 matching)), Some m)
        /\ ((length matching <= 50)%nat -> take 50 matching = matching)).
Proof.
  intros HN. repeat apply conj.
  - intros user_id [m0|] docs db' H; [|discriminate].
    rewrite list_checkins_run in H. injection H as <- _. by apply limited_length.
  - intros squad_id user_id [m0|] docs db' H; [|discriminate].
    rewrite list_posts_run in H. injection H as <- _. by apply limited_length.
  - intros user_id matching. split; [apply list_checkins_run|apply take_ge].
  - intros squad_id user_id matching. split; [apply list_posts_run|apply take_ge].
Qed.

(** ** Further properties of the handlers *)

(** *** Signup *)

Lemma find_one_None_find (name : string) (q : Mongo.query) (m : Mongo.database) :
  Mongo.find_one name q m = None -> Mongo.find name q m = [].
Proof. unfold Mongo.find_one. by destruct (Mongo.find name q m). Qed.

Lemma signup_run (m : Mongo.database) (payload : SignupRequest) :
  Mongo.find_one "user" (field_is "email" (signup_email payload)) m = None ->
  valid_email (signup_email payload) = true ->
  signup payload (Some m)
  = (inr (id_response (py_str (VOid (Mongo.next_oid m)))),
     Some (appended "user"
             (User.dump (User.mk (signup_name payload)
                                 (normalize_email (signup_email payload))
                                 (password_hash_of (signup_password payload))
                                 Free (Some []) 0)) m)).
Proof.
  intros Hnone Hvalid.
  unfold signup, bind, the_db, collection, find_one. simpl.
  unfold field_is in Hnone. rewrite Hnone. simpl.
  unfold lift, User_check. simpl. rewrite Hvalid.
  by rewrite insert_one_fresh by reflexivity.
Qed.

(** X1. On an available store in which no user record matches the email
    as sent, and with an email that [EmailStr] accepts, signup adds exactly
    one user record and answers with its identifier.  The record holds the
    email in the normalised form [EmailStr] yields (not the address as
    sent), the derived ["sha1::..."] value under [password_hash], the plan
    "free", no preferences and a streak of 0, and has no [password]
    field. *)
Theorem signup_creates_user (m : Mongo.database) (payload : SignupRequest) :
  Mongo.find_one "user" (field_is "email" (signup_email payload)) m = None ->
  valid_email (signup_email payload) = true ->
  let user :=
    <["name" := VStr (signup_name payload)]>
    (<["email" := VStr (normalize_email (signup_email payload))]>
    (<["password_hash" := VStr (password_hash_of (signup_password payload))]>
    (<["plan" := VStr "free"]>
    (<["preferences" := VDict []]>
    (<["streak" := VInt 0]> ∅))))) in
  signup payload (Some m)
  = (inr (id_response (py_str (VOid (Mongo.next_oid m)))),
     Some (appended "user" user m))
  /\ user !! "password" = None.
Proof.
  intros Hnone Hvalid user. split; [|reflexivity].
  by rewrite signup_run.
Qed.

(** X2. The signup request takes any string as email, the user model does
    not: for an email that [EmailStr] refuses (and that no record matches)
    building the user raises a validation error inside the handler, which
    nothing catches (a 500, not a client error), and nothing is written. *)
Theorem signup_invalid_email_unhandled (m : Mongo.database) (payload : SignupRequest) :
  Mongo.find_one "user" (field_is "email" (signup_email payload)) m = None ->
  valid_email (signup_email payload) = false ->
  with_body signup payload (Some m) = (inl (ValidationError "email"), Some m)
  /\ status_of (ValidationError "email") = 500
  /\ client_error (ValidationError "email") = false.
Proof.
  intros Hnone Hvalid. split; [|split; reflexivity].
  unfold with_body. simpl.
  unfold signup, bind, the_db, collection, find_one. simpl.
  unfold field_is in Hnone. rewrite Hnone. simpl.
  unfold lift, User_check. simpl. by rewrite Hvalid.
Qed.

(** *** Login *)

Lemma update_first_length (p : dict -> bool) (f : dict -> dict) (l : list dict) :
  length (Mongo.update_first p f l) = length l.
Proof.
  induction l as [|d l IH]; simpl; [done|]. destruct (p d); simpl; congruence.
Qed.

Lemma docs_update_one (name name' : string) (q : Mongo.query) (fields : dict)
    (m : Mongo.database) :
  Mongo.docs name' (Mongo.update_one name q fields m)
  = if decide (name = name')
    then Mongo.update_first (Mongo.matches q) (fun d => fields ∪ d) (Mongo.docs name m)
    else Mongo.docs name' m.
Proof.
  unfold Mongo.update_one, Mongo.set_docs. unfold Mongo.docs at 1. simpl.
  rewrite lookup_insert. by destruct (decide (name = name')).
Qed.

(** The outcomes of login on an available store: the store as it was, or
    the store after one [update_one] on the user collection. *)
Lemma login_store (m : Mongo.database) (payload : LoginRequest) :
  snd (login payload (Some m)) = Some m
  \/ exists i,
       snd (login payload (Some m))
       = Some (Mongo.update_one "user" {[ "_id" := Mongo.Equals i ]}
                 {[ "session_token" :=
                      VStr (token_of (login_email payload) (login_password payload)) ]} m).
Proof.
  unfold login, bind, collection, find_one, update_one, lift, getitem, ret. simpl.
  destruct (Mongo.find_one _ _ m) as [u|]; [|by left].
  destruct (dict_truthy u); [|by left]. simpl.
  destruct (value_eqb _ _); [|by left]. simpl.
  destruct (u !! "_id") as [i|]; [|by left]. simpl.
  right. by exists i.
Qed.

(** X3. Whatever its outcome, login on an available store neither adds
    nor removes a record and gives out no identifier: every collection
    keeps its length, every collection but the user collection is what it
    was. *)
Theorem login_keeps_records (m : Mongo.database) (payload : LoginRequest) :
  exists m',
    snd (login payload (Some m)) = Some m'
    /\ Mongo.next_oid m' = Mongo.next_oid m
    /\ forall name,
         length (Mongo.docs name m') = length (Mongo.docs name m)
         /\ (name <> "user" -> Mongo.docs name m' = Mongo.docs name m).
Proof.
  destruct (login_store m payload) as [->|[i ->]]; eexists; (split; [done|]).
  - split; [done|]. by intros name.
  - split; [done|]. intros name. rewrite docs_update_one.
    destruct (decide ("user" = name)) as [<-|Hne].
    + split; [apply update_first_length|done].
    + done.
Qed.

(** *** Reads and creates *)

(** X4. A list request leaves the handle as it found it, whether it
    returns records or raises. *)
Theorem reads_leave_store (r : request) (db : handle) :
  is_read r = true -> after r db = db.
Proof.
  destruct list_handlers_read_only as (Hl1 & Hl2 & Hl3 & Hl4 & Hl5 & Hl6 & Hl7).
  destruct r; try discriminate; intros _; unfold after.
  - apply Hl1.
  - apply Hl3.
  - apply Hl4.
  - apply Hl5.
  - apply Hl6.
  - apply Hl2.
  - apply Hl7.
Qed.

Lemma after_create (r : request) (name : string) (d : dict) (m : Mongo.database) :
  created_by r = Some (name, d) ->
  rating_ok r = true ->
  after r (Some m) = Some (appended name d m)
  /\ d !! "_id" = None /\ name <> "user".
Proof.
  intros Hr Hok.
  destruct r; try discriminate; simpl in Hr; injection Hr as <- <-; unfold after;
    (split; [|split; [try reflexivity|done]]).
  - rewrite (with_body_inr ContentItem_model) by reflexivity.
    unfold add_content, bind.
    by rewrite (create_document_available (H := ContentItem_model)).
  - rewrite (with_body_inr Task_model) by reflexivity.
    unfold submit_task, bind.
    by rewrite (create_document_available (H := Task_model)).
  - rewrite (with_body_inr Checkin_model) by reflexivity.
    unfold create_checkin, bind.
    by rewrite (create_document_available (H := Checkin_model)).
  - rewrite (with_body_inr Squad_model) by reflexivity.
    unfold create_squad, bind. cbv zeta.
    rewrite (create_document_available (H := Squad_model)) by reflexivity.
    simpl. change (model_dump (with_owner squad)) with (Squad.dump (with_owner squad)).
    by rewrite with_owner_dump.
  - destruct (bool_decide _); reflexivity.
  - rewrite (with_body_inr Post_model) by reflexivity.
    unfold create_post, bind.
    by rewrite (create_document_available (H := Post_model)).
  - rewrite (with_body_inr Program_model) by reflexivity.
    unfold create_program, bind.
    by rewrite (create_document_available (H := Program_model)).
  - rewrite (with_body_inr Enrollment_model) by reflexivity.
    unfold enroll_user, bind.
    by rewrite (create_document_available (H := Enrollment_model)).
  - rewrite feedback_in_range_stored; [done|].
    intros n Hn. simpl in Hok. rewrite Hn in Hok.
    apply andb_true_iff in Hok as [H1 H2]. lia.
Qed.

(** X5. Each of the eight create requests, when its body passes
    validation, adds exactly one document to its own collection of an
    available store: the dictionary form of the body (for a squad, with
    the owner among the members) under the next identifier; all other
    documents stay as they were. *)
Theorem create_adds_one_document
    (r : request) (name : string) (d : dict) (m : Mongo.database) :
  created_by r = Some (name, d) ->
  rating_ok r = true ->
  after r (Some m) = Some (appended name d m)
  /\ forall name',
       Mongo.docs name' (appended name d m)
       = if decide (name = name')
         then Mongo.docs name m ++ [<["_id" := VOid (Mongo.next_oid m)]> d]
         else Mongo.docs name' m.
Proof.
  intros Hr Hok. split; [|intros name'; apply docs_appended].
  by apply after_create.
Qed.

(** X6. An optional string parameter sent empty is a parameter not sent:
    the filters and the search treat the empty string as [None]. *)
Theorem empty_parameters_are_absent (db : handle) :
  (forall q tier, list_content (Some EmptyString) q tier db = list_content None q tier db)
  /\ (forall category tier,
        list_content category (Some EmptyString) tier db = list_content category None tier db)
  /\ (forall category q,
        list_content category q (Some EmptyString) db = list_content category q None db)
  /\ (forall user_id, list_tasks user_id (Some EmptyString) db = list_tasks user_id None db)
  /\ list_squads (Some EmptyString) db = list_squads None db
  /\ (forall user_id limit,
        list_posts (Some EmptyString) user_id limit db = list_posts None user_id limit db)
  /\ (forall squad_id limit,
        list_posts squad_id (Some EmptyString) limit db = list_posts squad_id None limit db)
  /\ list_programs (Some EmptyString) db = list_programs None db.
Proof. repeat apply conj; reflexivity. Qed.

(** X7. GET /tasks returns, reshaped, the stored tasks whose [user_id]
    matches and, when a non-empty week is given, whose [week] matches too:
    the week only narrows the list of the user. *)
Theorem list_tasks_filters (m : Mongo.database) (user_id : string) (week : option string) :
  list_tasks user_id week (Some m)
  = (inr (map rename_id
            (List.filter (eq_filter "week" week)
               (Mongo.find "task" (field_is "user_id" user_id) m))),
     Some m).
Proof.
  unfold list_tasks, bind, get_documents, ret. cbv zeta.
  rewrite (find_ext _ _ _ (fun d => Mongo.field_matches (d !! "user_id") (VStr user_id)
                                     && eq_filter "week" week d)).
  - unfold Mongo.find. rewrite (filter_ext (Mongo.matches _)
      (fun d => Mongo.field_matches (d !! "user_id") (VStr user_id)))
      by (intros d; apply matches_singleton).
    simpl. do 3 f_equal. clear.
    induction (Mongo.docs "task" m) as [|d l IH]; simpl; [done|].
    destruct (Mongo.field_matches _ _); simpl; [|done].
    destruct (eq_filter "week" week d); by rewrite IH.
  - intros d. unfold eq_filter. destruct (str_truthy week).
    + rewrite matches_insert by done. rewrite matches_singleton. simpl.
      apply andb_comm.
    + rewrite matches_singleton. simpl. by rewrite andb_true_r.
Qed.

(** *** The squad's member list *)

Lemma owner_check (squad : Squad.t) :
  existsb (String.eqb (Squad.owner_id squad)) (Squad.members squad) = true
  <-> Squad.owner_id squad ∈ Squad.members squad.
Proof.
  rewrite existsb_exists. split.
  - intros (x & Hx & Heq). apply String.eqb_eq in Heq as ->.
    by apply list_elem_of_In.
  - intros Hin. exists (Squad.owner_id squad). split.
    + by apply list_elem_of_In.
    + apply String.eqb_refl.
Qed.

Lemma with_owner_cases (squad : Squad.t) :
  (Squad.owner_id squad ∈ Squad.members squad /\ with_owner squad = squad)
  \/ ((Squad.owner_id squad ∉ Squad.members squad)
      /\ with_owner squad
         = Squad.mk (Squad.name squad) (Squad.description squad)
                    (Squad.owner_id squad)
                    (Squad.members squad ++ [Squad.owner_id squad])).
Proof.
  pose proof (owner_check squad) as Hc. unfold with_owner.
  destruct (existsb _ (Squad.members squad)) eqn:E; simpl.
  - left. split; [by apply Hc|done].
  - right. split; [|done]. intros Hin. apply Hc in Hin. congruence.
Qed.

(** X8. What [create_squad] does to the body before storing it: the
    caller's members stay, in their order, and at most the owner is added
    after them; a list without repetitions stays without; name,
    description and owner are untouched; and a second pass changes
    nothing. *)
Theorem with_owner_normalises (squad : Squad.t) :
  (Squad.members (with_owner squad) = Squad.members squad
   \/ ((Squad.owner_id squad ∉ Squad.members squad)
       /\ Squad.members (with_owner squad)
          = Squad.members squad ++ [Squad.owner_id squad]))
  /\ (NoDup (Squad.members squad) -> NoDup (Squad.members (with_owner squad)))
  /\ Squad.name (with_owner squad) = Squad.name squad
  /\ Squad.description (with_owner squad) = Squad.description squad
  /\ Squad.owner_id (with_owner squad) = Squad.owner_id squad
  /\ with_owner (with_owner squad) = with_owner squad.
Proof.
  destruct (with_owner_cases squad) as [[Hin ->]|[Hnot ->]].
  - repeat apply conj; try done; [by left|].
    unfold with_owner. by rewrite (proj2 (owner_check squad) Hin).
  - simpl. repeat apply conj; try done.
    + by right.
    + intros Hnd. apply NoDup_app. split; [done|]. split.
      * intros x Hx ->%list_elem_of_singleton. done.
      * apply NoDup_singleton.
    + unfold with_owner. simpl.
      replace (existsb _ _) with true; [done|].
      symmetry. apply existsb_exists. exists (Squad.owner_id squad). split.
      * apply in_or_app. right. by left.
      * apply String.eqb_refl.
Qed.

(** *** The search *)

Lemma str_truthy_lower (a b : string) :
  lower a = lower b -> str_truthy (Some a) = str_truthy (Some b).
Proof.
  intros Hab. destruct a as [|c a], b as [|c' b]; try reflexivity; exfalso.
  - symmetry in Hab. rewrite lower_nil in Hab.
    apply (proj1 (lower_empty _)) in Hab. discriminate.
  - rewrite lower_nil in Hab. apply (proj1 (lower_empty _)) in Hab. discriminate.
Qed.

(** X9. The search does not look at the case of the term: two terms with
    the same lower-case form, as [str.lower] gives it, get the same
    response on every store. *)
Theorem search_ignores_term_case
    (db : handle) (category tier : option string) (q1 q2 : string) :
  lower q1 = lower q2 ->
  list_content category (Some q1) tier db = list_content category (Some q2) tier db.
Proof.
  intros Hq. unfold list_content. cbv zeta.
  rewrite (str_truthy_lower q1 q2 Hq). simpl default. by rewrite Hq.
Qed.

Lemma search_hit_searchable (q : string) (i : dict) :
  searchable q i = true -> search_hit (lower q) i = inr (search_matches q i).
Proof.
  unfold searchable, search_hit, search_matches, get_or, text_of.
  destruct (i !! "title") as [[]|]; try discriminate;
    destruct (i !! "description") as [[]|]; simpl; intros H;
    match goal with
    | |- (if ?b then _ else _) = _ => destruct b eqn:E
    end; simpl in *; done.
Qed.

Lemma search_hit_unsearchable (q : string) (i : dict) :
  searchable q i = false -> exists msg, search_hit (lower q) i = inl (AttributeError msg).
Proof.
  unfold searchable, search_hit, get_or, text_of.
  destruct (i !! "title") as [[]|]; simpl; eauto;
    destruct (i !! "description") as [[]|]; simpl; intros H;
    match goal with
    | |- exists _, (if ?b then _ else _) = _ => destruct b eqn:E
    end; simpl in *; try discriminate; eauto.
Qed.

Lemma comprehension_first_error (cond : dict -> res bool) (items : list dict)
    (P : error -> Prop) :
  (forall i e, cond i = inl e -> P e) ->
  forall e, comprehension cond items = inl e -> P e.
Proof.
  intros Hc. induction items as [|i l IH]; simpl; intros e He; [discriminate|].
  destruct (cond i) as [e'|b] eqn:E; simpl in He.
  - injection He as <-. by eapply Hc.
  - destruct (comprehension cond l) as [e'|r]; simpl in He; [|discriminate].
    injection He as <-. by apply IH.
Qed.

(** X10. When the search returns and when it raises.  With a non-empty
    term, the handler function [list_content] of GET /library returns a
    list exactly when every stored item that passes the category and tier
    filters is searchable: its title is a string or absent and, unless the
    term occurs in the title, so is its description.  The list is then the
    filtered items in which the term occurs in the title or the
    description, both taken through [str.lower], without their [_id];
    otherwise the handler raises an [AttributeError], and no other
    exception.  The statement is about the value the handler returns, for
    every [str.lower]; the serialisation under [response_model] that
    follows is not part of it. *)
Theorem library_search_returns_or_raises
    (m : Mongo.database) (category tier : option string) (q : string) :
  q <> EmptyString ->
  let items := List.filter (library_matches category tier)
                           (Mongo.docs "contentitem" m) in
  (forallb (searchable q) items = true ->
   list_content category (Some q) tier (Some m)
   = (inr (map (delete "_id") (List.filter (search_matches q) items)), Some m))
  /\ (forallb (searchable q) items = false ->
      exists msg,
        list_content category (Some q) tier (Some m)
        = (inl (AttributeError msg), Some m)).
Proof.
  intros Hq items. rewrite list_content_run. cbv zeta. fold items.
  replace (str_truthy (Some q)) with true
    by (symmetry; apply str_truthy_Some; eauto).
  simpl default. split.
  - intros Hall. rewrite (comprehension_filter _ (search_matches q)); [done|].
    apply Forall_forall. intros i Hi. apply search_hit_searchable.
    rewrite forallb_forall in Hall. apply Hall. by apply list_elem_of_In.
  - intros Hnot.
    assert (exists i, i ∈ items /\ searchable q i = false) as (i & Hi & Hbad).
    { clear -Hnot. induction items as [|j l IH]; simpl in Hnot; [discriminate|].
      destruct (searchable q j) eqn:E.
      - destruct (IH Hnot) as (i & Hi & Hbad). exists i. split; [by right|done].
      - exists j. split; [by left|done]. }
    destruct (search_hit_unsearchable q i Hbad) as [msg Hmsg].
    destruct (comprehension_raises _ items i _ Hi Hmsg) as [e He].
    rewrite He.
    assert (exists msg', e = AttributeError msg') as [msg' ->]; [|eauto].
    eapply (comprehension_first_error (search_hit (lower q)) items
              (fun e => exists msg', e = AttributeError msg')); [|exact He].
    intros j e' Hj. destruct (searchable q j) eqn:E.
    + rewrite (search_hit_searchable q j E) in Hj. discriminate.
    + destruct (search_hit_unsearchable q j E) as [msg' Hj'].
      rewrite Hj' in Hj. injection Hj as <-. eauto.
Qed.

(** *** Records as they are returned *)

Lemma rename_id_reshaped (d : dict) : reshaped d (rename_id d).
Proof.
  unfold reshaped, rename_id. destruct (truthy (get d "_id")).
  - split; [|split].
    + rewrite lookup_insert_ne by done. apply lookup_delete_eq.
    + apply lookup_insert_eq.
    + intros k H1 H2. rewrite lookup_insert_ne by done.
      by rewrite lookup_delete_ne.
  - split; [apply lookup_insert_eq|].
    intros k Hk. by rewrite lookup_insert_ne.
Qed.

Lemma reshaped_records (name : string) (db : handle) (l : list dict) :
  (exists m, db = Some m /\ l ⊆ Mongo.docs name m) ->
  Forall (fun r => exists m d, db = Some m /\ d ∈ Mongo.docs name m /\ reshaped d r)
         (map rename_id l).
Proof.
  intros (m & -> & Hsub). apply Forall_fmap, Forall_forall. intros d Hd.
  exists m, d. split; [done|]. split; [by apply Hsub|apply rename_id_reshaped].
Qed.

(** X11. Every record that GET /tasks, /checkins, /squads, /posts and
    /enrollments return is a stored document of the collection, reshaped:
    all fields other than [_id] and [id] are passed on unchanged; a
    true-valued [_id] is removed and its [str] put under [id]; a document
    whose [_id] is absent or false-valued (null, 0, the empty string) gets
    [id] = null and keeps whatever it has under [_id].  A stored field
    named [id] is overwritten in both cases. *)
Theorem list_records_are_reshaped (db : handle) :
  (forall user_id week r db',
      list_tasks user_id week db = (inr r, db') ->
      Forall (fun x => exists m d,
                db = Some m /\ d ∈ Mongo.docs "task" m /\ reshaped d x) r)
  /\ (forall user_id limit r db',
        list_checkins user_id limit db = (inr r, db') ->
        Forall (fun x => exists m d,
                  db = Some m /\ d ∈ Mongo.docs "checkin" m /\ reshaped d x) r)
  /\ (forall member_id r db',
        list_squads member_id db = (inr r, db') ->
        Forall (fun x => exists m d,
                  db = Some m /\ d ∈ Mongo.docs "squad" m /\ reshaped d x) r)
  /\ (forall squad_id user_id limit r db',
        list_posts squad_id user_id limit db = (inr r, db') ->
        Forall (fun x => exists m d,
                  db = Some m /\ d ∈ Mongo.docs "post" m /\ reshaped d x) r)
  /\ (forall user_id r db',
        list_enrollments user_id db = (inr r, db') ->
        Forall (fun x => exists m d,
                  db = Some m /\ d ∈ Mongo.docs "enrollment" m /\ reshaped d x) r).
Proof.
  repeat apply conj.
  - intros user_id week r db' H. unfold list_tasks in H. cbv zeta in H. listed H.
    by apply reshaped_records.
  - intros user_id limit r db' H. unfold list_checkins in H. cbv zeta in H. listed H.
    by apply reshaped_records.
  - intros member_id r db' H. unfold list_squads in H. cbv zeta in H. listed H.
    by apply reshaped_records.
  - intros squad_id user_id limit r db' H. unfold list_posts in H. cbv zeta in H.
    listed H. by apply reshaped_records.
  - intros user_id r db' H. unfold list_enrollments in H. listed H.
    by apply reshaped_records.
Qed.

(** *** A created record among the records listed *)

Lemma find_appended (name : string) (q : Mongo.query) (d : dict) (m : Mongo.database) :
  Mongo.matches q (<["_id" := VOid (Mongo.next_oid m)]> d) = true ->
  Mongo.find name q (appended name d m)
  = Mongo.find name q m ++ [<["_id" := VOid (Mongo.next_oid m)]> d].
Proof.
  intros Hm. unfold Mongo.find. rewrite docs_appended.
  rewrite decide_True by done. rewrite List.filter_app. simpl. by rewrite Hm.
Qed.

Lemma listed_before_and_after (name : string) (d : dict) (q : Mongo.query)
    (limit : option Z) (m : Mongo.database) :
  d !! "_id" = None ->
  Mongo.matches q (<["_id" := VOid (Mongo.next_oid m)]> d) = true ->
  match limit with
  | Some n => (length (Mongo.find name q m) < Z.to_nat n)%nat
  | None => True
  end ->
  let h := bind (get_documents name q limit) (fun docs => ret (map rename_id docs)) in
  h (Some m) = (inr (map rename_id (Mongo.find name q m)), Some m)
  /\ h (Some (appended name d m))
     = (inr (map rename_id (Mongo.find name q m)
             ++ [<["id" := VStr (py_str (VOid (Mongo.next_oid m)))]> d]),
        Some (appended name d m)).
Proof.
  intros Hid Hm Hlim h. unfold h, bind, get_documents, ret.
  rewrite (find_appended _ _ _ _ Hm). split.
  - destruct limit as [n|]; [|done]. rewrite take_ge by lia. done.
  - assert (match limit with
            | Some n => take (Z.to_nat n)
                          (Mongo.find name q m ++ [<["_id" := VOid (Mongo.next_oid m)]> d])
            | None => Mongo.find name q m ++ [<["_id" := VOid (Mongo.next_oid m)]> d]
            end = Mongo.find name q m ++ [<["_id" := VOid (Mongo.next_oid m)]> d]) as ->.
    { destruct limit as [n|]; [|done]. apply take_ge.
      rewrite length_app. simpl. lia. }
    rewrite map_app. simpl. by rewrite rename_id_fresh.
Qed.

(** X12. For a task, a check-in, an enrollment, a post with a non-empty
    [user_id] and a squad with a non-empty owner: when the records already
    matching the key leave room under the handler's limit (fewer than 30
    check-ins, fewer than 50 posts; tasks, enrollments and squads have no
    limit), the list filtered on the key returns, after the create, the
    records it returned before and the created one, whatever else the
    store holds. *)
Theorem created_record_is_listed (m : Mongo.database) (e : entity) :
  key_usable e ->
  within_limit e m ->
  exists new_id m' before after_create,
    create e (Some m) = (inr (id_response new_id), Some m')
    /\ list_by_key e (Some m) = (inr before, Some m)
    /\ list_by_key e (Some m') = (inr after_create, Some m')
    /\ after_create ≡ₚ <["id" := VStr new_id]> (returned e) :: before.
Proof.
  intros Hkey Hlim. exists (py_str (VOid (Mongo.next_oid m))).
  assert (forall (l : list dict) x, l ++ [x] ≡ₚ x :: l) as Hperm
    by (intros l x; symmetry; apply Permutation_cons_append).
  destruct e as [x|x|x|x|x]; [simpl in *..|rewrite <- with_owner_dump; simpl in *].
  - destruct (listed_before_and_after "task" (Task.dump x)
                (field_is "user_id" (Task.user_id x)) None m) as [H1 H2]; try done.
    { unfold field_is. rewrite matches_singleton. by apply field_matches_eq. }
    eexists _, _, _. split; [|split; [exact H1|split; [exact H2|apply Hperm]]].
    unfold submit_task, bind.
    by rewrite (create_document_available (H := Task_model)).
  - destruct (listed_before_and_after "checkin" (Checkin.dump x)
                (field_is "user_id" (Checkin.user_id x)) (Some 30) m) as [H1 H2];
      try done.
    { unfold field_is. rewrite matches_singleton. by apply field_matches_eq. }
    eexists _, _, _. split; [|split; [exact H1|split; [exact H2|apply Hperm]]].
    unfold create_checkin, bind.
    by rewrite (create_document_available (H := Checkin_model)).
  - assert (list_posts None (Some (Post.user_id x)) None
            = bind (get_documents "post" (field_is "user_id" (Post.user_id x)) (Some 50))
                   (fun docs => ret (map rename_id docs))) as ->.
    { unfold list_posts. cbv zeta.
      replace (str_truthy (Some (Post.user_id x))) with true
        by (symmetry; apply str_truthy_Some; eauto).
      simpl. by rewrite insert_empty. }
    destruct (listed_before_and_after "post" (Post.dump x)
                (field_is "user_id" (Post.user_id x)) (Some 50) m) as [H1 H2];
      try done.
    { unfold field_is. rewrite matches_singleton. by apply field_matches_eq. }
    eexists _, _, _. split; [|split; [exact H1|split; [exact H2|apply Hperm]]].
    unfold create_post, bind.
    by rewrite (create_document_available (H := Post_model)).
  - destruct (listed_before_and_after "enrollment" (Enrollment.dump x)
                (field_is "user_id" (Enrollment.user_id x)) None m) as [H1 H2];
      try done.
    { unfold field_is. rewrite matches_singleton. by apply field_matches_eq. }
    eexists _, _, _. split; [|split; [exact H1|split; [exact H2|apply Hperm]]].
    unfold enroll_user, bind.
    by rewrite (create_document_available (H := Enrollment_model)).
  - assert (list_squads (Some (Squad.owner_id x))
            = bind (get_documents "squad"
                      {[ "members" := Mongo.InSet [VStr (Squad.owner_id x)] ]} None)
                   (fun docs => ret (map rename_id docs))) as ->.
    { unfold list_squads. cbv zeta.
      replace (str_truthy (Some (Squad.owner_id x))) with true
        by (symmetry; apply str_truthy_Some; eauto).
      done. }
    destruct (listed_before_and_after "squad" (Squad.dump (with_owner x))
                {[ "members" := Mongo.InSet [VStr (Squad.owner_id x)] ]} None m)
      as [H1 H2]; try done.
    { rewrite matches_singleton.
      change ((<["_id" := VOid (Mongo.next_oid m)]> (Squad.dump (with_owner x)))
                !! "members")
        with (Some (str_list (Squad.members (with_owner x)))).
      simpl. rewrite orb_false_r.
      apply str_list_member. apply with_owner_members. }
    eexists _, _, _. split; [|split; [exact H1|split; [exact H2|apply Hperm]]].
    unfold create_squad, bind. cbv zeta.
    by rewrite (create_document_available (H := Squad_model)).
Qed.

(** X13. A squad is found under each of its members: after POST /squads,
    GET /squads with [member_id] the owner or any non-empty member of the
    submitted list returns the created squad among its records. *)
Theorem squad_listed_for_every_member
    (m : Mongo.database) (squad : Squad.t) (member_id : string) :
  member_id <> EmptyString ->
  member_id = Squad.owner_id squad \/ member_id ∈ Squad.members squad ->
  exists new_id m' l,
    create_squad squad (Some m) = (inr (id_response new_id), Some m')
    /\ list_squads (Some member_id) (Some m') = (inr l, Some m')
    /\ <["id" := VStr new_id]> (returned (a_squad squad)) ∈ l.
Proof.
  intros Hne Hmem. rewrite <- with_owner_dump.
  assert (member_id ∈ Squad.members (with_owner squad)) as Hin.
  { destruct Hmem as [->|Hmem]; [apply with_owner_members|].
    destruct (with_owner_cases squad) as [[_ ->]|[_ ->]]; [done|].
    simpl. apply elem_of_app. by left. }
  assert (list_squads (Some member_id)
          = bind (get_documents "squad"
                    {[ "members" := Mongo.InSet [VStr member_id] ]} None)
                 (fun docs => ret (map rename_id docs))) as ->.
  { unfold list_squads. cbv zeta.
    replace (str_truthy (Some member_id)) with true
      by (symmetry; apply str_truthy_Some; eauto).
    done. }
  destruct (listed_before_and_after "squad" (Squad.dump (with_owner squad))
              {[ "members" := Mongo.InSet [VStr member_id] ]} None m)
    as [_ H2]; try done.
  { rewrite matches_singleton.
    change ((<["_id" := VOid (Mongo.next_oid m)]> (Squad.dump (with_owner squad)))
              !! "members")
      with (Some (str_list (Squad.members (with_owner squad)))).
    simpl. rewrite orb_false_r. by apply str_list_member. }
  eexists _, _, _. split; [|split; [exact H2|]].
  - unfold create_squad, bind. cbv zeta.
    by rewrite (create_document_available (H := Squad_model)).
  - apply elem_of_app. right. by apply list_elem_of_singleton.
Qed.

(** *** Signup, then login *)



(** *** Diagnostics *)

Lemma substring_length (n : nat) (s : string) :
  (String.length (String.substring 0 n s) <= n)%nat.
Proof.
  revert s. induction n as [|n IH]; intros [|c s]; simpl; try lia.
  specialize (IH s). lia.
Qed.

(** X15. The diagnostic never fails, leaves the handle alone and always
    reports the backend as running.  Without a store it returns the report
    it starts from.  With a store it reports "Connected", and either the
    driver listed the collections, of which at most the first ten are
    reported, or the driver raised, and then the collections stay empty
    and the message carries at most 80 characters of the exception. *)
Theorem test_database_report (db : handle) :
  exists report,
    test_database db = (inr report, db)
    /\ report !! "backend" = Some (VStr "✅ Running")
    /\ match db with
       | None => report = initial_report
       | Some m =>
           report !! "connection_status" = Some (VStr "Connected")
           /\ match list_collection_names m with
              | inr names =>
                  report !! "collections" = Some (str_list (take 10 names))
                  /\ (length (take 10 names) <= 10)%nat
                  /\ report !! "database" = Some (VStr "✅ Connected & Working")
              | inl e =>
                  report !! "collections" = Some (VList [])
                  /\ exists text,
                       report !! "database"
                       = Some (VStr ("⚠️ Connected but Error: " +:+ text))
                       /\ (String.length text <= 80)%nat
              end
       end.
Proof.
  unfold test_database, bind, the_db, ret, try_except. cbv zeta.
  destruct db as [m|]; [|eexists; split; [reflexivity|split; reflexivity]].
  destruct (list_collection_names m) as [e|names]; simpl;
    (eexists; split; [reflexivity|split; [reflexivity|split; [reflexivity|]]]).
  - split; [reflexivity|]. eexists. split; [reflexivity|apply substring_length].
  - split; [reflexivity|]. split; [|reflexivity]. rewrite length_take. lia.
Qed.

(** *** What every reached store satisfies *)

Lemma update_first_map {B : Type} (g : dict -> B) (p : dict -> bool)
    (f : dict -> dict) (l : list dict) :
  (forall d, g (f d) = g d) ->
  map g (Mongo.update_first p f l) = map g l.
Proof.
  intros Hg. induction l as [|d l IH]; simpl; [done|].
  destruct (p d); simpl; [by rewrite Hg|by rewrite IH].
Qed.

Lemma token_keeps_field (token : value) (k : string) (d : dict) :
  k <> "session_token" ->
  (({[ "session_token" := token ]} : dict) ∪ d) !! k = d !! k.
Proof.
  intros Hk. rewrite lookup_union_r; [done|]. by apply lookup_singleton_ne.
Qed.

Lemma store_inv_empty : store_inv empty_store.
Proof.
  split; [|split].
  - intros name d Hd. by apply elem_of_nil in Hd.
  - intros name. apply NoDup_nil_2.
  - apply List.Forall_nil.
Qed.

Lemma ids_given_fresh (name : string) (m : Mongo.database) :
  ids_given m -> Some (VOid (Mongo.next_oid m)) ∉ ids_of name m.
Proof.
  intros Hids Hin. unfold ids_of in Hin.
  apply list_elem_of_fmap in Hin as (d & Hd & Hin).
  destruct (Hids name d Hin) as (k & Hk & Hlt).
  rewrite Hk in Hd. injection Hd as Heq. lia.
Qed.

Lemma store_inv_appended (name : string) (d : dict) (m : Mongo.database) :
  d !! "_id" = None ->
  (name = "user" -> exists e, d !! "email" = Some (VStr e)) ->
  store_inv m -> store_inv (appended name d m).
Proof.
  intros Hid Huser (Hids & Hnd & Hmail).
  split; [|split].
  - intros name' d' Hd'. rewrite docs_appended in Hd'. simpl.
    destruct (decide (name = name')) as [<-|Hne].
    + apply elem_of_app in Hd' as [Hd'|Hd'].
      * destruct (Hids name d' Hd') as (k & Hk & Hlt). exists k. split; [done|lia].
      * apply list_elem_of_singleton in Hd' as ->. eexists.
        split; [apply lookup_insert_eq|lia].
    + destruct (Hids name' d' Hd') as (k & Hk & Hlt). exists k. split; [done|lia].
  - intros name'. unfold ids_of. rewrite docs_appended.
    destruct (decide (name = name')) as [<-|Hne]; [|apply Hnd].
    rewrite map_app. simpl. rewrite lookup_insert_eq.
    apply NoDup_app. split; [apply Hnd|]. split; [|apply NoDup_singleton].
    intros x Hx ->%list_elem_of_singleton. by apply (ids_given_fresh name m).
  - unfold users_have_email. rewrite docs_appended.
    destruct (decide (name = "user")) as [->|Hne]; [|done].
    destruct (Huser eq_refl) as (e & He).
    apply Forall_app. split; [done|]. apply Forall_singleton.
    exists e. by rewrite lookup_insert_ne.
Qed.

Lemma store_inv_token (q : Mongo.query) (token : string) (m : Mongo.database) :
  store_inv m ->
  store_inv (Mongo.update_one "user" q {[ "session_token" := VStr token ]} m).
Proof.
  intros (Hids & Hnd & Hmail).
  assert (forall k, k <> "session_token" ->
            map (fun d : dict => d !! k)
                (Mongo.docs "user"
                   (Mongo.update_one "user" q {[ "session_token" := VStr token ]} m))
            = map (fun d : dict => d !! k) (Mongo.docs "user" m)) as Hmap.
  { intros k Hk. rewrite docs_update_one, decide_True by done.
    apply update_first_map. intros d. by apply token_keeps_field. }
  split; [|split].
  - intros name d Hd. rewrite docs_update_one in Hd. simpl.
    destruct (decide ("user" = name)) as [<-|Hne]; [|by apply (Hids name)].
    apply update_first_elem in Hd as [Hd|(d0 & Hd0 & ->)]; [by apply (Hids "user")|].
    destruct (Hids "user" d0 Hd0) as (k & Hk & Hlt). exists k. split; [|done].
    by rewrite token_keeps_field.
  - intros name. unfold ids_of. destruct (decide ("user" = name)) as [<-|Hne].
    + rewrite Hmap by done. apply Hnd.
    + rewrite docs_update_one, decide_False by done. apply Hnd.
  - unfold users_have_email. apply Forall_forall. intros d Hd.
    rewrite docs_update_one, decide_True in Hd by done.
    unfold users_have_email in Hmail. rewrite Forall_forall in Hmail.
    apply update_first_elem in Hd as [Hd|(d0 & Hd0 & ->)]; [by apply Hmail|].
    destruct (Hmail d0 Hd0) as [e He]. exists e. by rewrite token_keeps_field.
Qed.

Lemma signup_store (m : Mongo.database) (payload : SignupRequest) :
  snd (signup payload (Some m)) = Some m
  \/ (Mongo.find "user" (field_is "email" (signup_email payload)) m = []
      /\ snd (signup payload (Some m))
         = Some (appended "user"
                   (User.dump (User.mk (signup_name payload)
                                       (normalize_email (signup_email payload))
                                       (password_hash_of (signup_password payload))
                                       Free (Some []) 0)) m)).
Proof.
  destruct (Mongo.find_one "user" (field_is "email" (signup_email payload)) m)
    as [u|] eqn:Hfind.
  - left. pose proof (find_one_matches _ _ _ _ Hfind) as [_ Hm].
    unfold signup, bind, the_db, collection, find_one. simpl.
    unfold field_is in Hfind. rewrite Hfind. simpl.
    by rewrite (matched_string_field_truthy _ _ _ Hm).
  - destruct (valid_email (signup_email payload)) eqn:Hvalid.
    + right. split; [by apply find_one_None_find|]. by rewrite signup_run.
    + left. unfold signup, bind, the_db, collection, find_one. simpl.
      unfold field_is in Hfind. rewrite Hfind. simpl.
      unfold lift, User_check. simpl. by rewrite Hvalid.
Qed.

Lemma after_rejected (r : request) (db : handle) :
  rating_ok r = false -> after r db = db.
Proof.
  destruct r; try discriminate. simpl. intros Hr.
  unfold with_body. change (validate feedback) with (Feedback.check feedback).
  unfold Feedback.check. destruct (Feedback.rating feedback); [|discriminate].
  by rewrite Hr.
Qed.

Lemma after_store_inv (r : request) (m : Mongo.database) :
  store_inv m -> exists m', after r (Some m) = Some m' /\ store_inv m'.
Proof.
  intros Hinv.
  destruct (created_by r) as [[name d]|] eqn:Hc.
  - destruct (rating_ok r) eqn:Hok.
    + destruct (after_create r name d m Hc Hok) as (-> & Hid & Hname).
      eexists. split; [done|]. by apply store_inv_appended.
    + rewrite (after_rejected r _ Hok). eauto.
  - destruct (is_read r) eqn:Hread.
    + destruct list_handlers_read_only as (Hl1 & Hl2 & Hl3 & Hl4 & Hl5 & Hl6 & Hl7).
      exists m. split; [|done].
      destruct r; try discriminate; unfold after;
        [apply Hl1|apply Hl3|apply Hl4|apply Hl5|apply Hl6|apply Hl2|apply Hl7].
    + destruct r; try discriminate; unfold after.
      * rewrite (with_body_inr SignupRequest_model) by reflexivity.
        destruct (signup_store m payload) as [->|[Hnone ->]]; [eauto|].
        eexists. split; [done|]. apply store_inv_appended; [reflexivity| |done].
        intros _. exists (normalize_email (signup_email payload)). reflexivity.
      * rewrite (with_body_inr LoginRequest_model) by reflexivity.
        destruct (login_store m payload) as [->|[i ->]]; [eauto|].
        eexists. split; [done|]. by apply store_inv_token.
Qed.

Lemma reachable_store_inv (db : handle) :
  reachable db -> exists m, db = Some m /\ store_inv m.
Proof.
  induction 1 as [|r db _ (m & -> & Hinv)].
  - exists empty_store. split; [done|apply store_inv_empty].
  - destruct (after_store_inv r m Hinv) as (m' & Hm' & Hinv'). eauto.
Qed.

Lemma sent_email_not_found_after_signup
    (m : Mongo.database) (sent name hash : string) :
  Mongo.find_one "user" (field_is "email" sent) m = None ->
  normalize_email sent <> sent ->
  Mongo.find_one "user" (field_is "email" sent)
    (appended "user"
       (User.dump (User.mk name (normalize_email sent) hash Free (Some []) 0)) m)
  = None.
Proof.
  intros Hnone Hne. unfold Mongo.find_one, Mongo.find.
  rewrite docs_appended, decide_True by done. rewrite List.filter_app.
  apply find_one_None_find in Hnone. unfold Mongo.find in Hnone. rewrite Hnone.
  simpl. unfold field_is. rewrite matches_singleton.
  assert ((<["_id" := VOid (Mongo.next_oid m)]>
             (User.dump (User.mk name (normalize_email sent) hash Free (Some []) 0)))
            !! "email"
          = Some (VStr (normalize_email sent))) as -> by reflexivity.
  simpl. rewrite orb_false_r.
  replace (String.eqb (normalize_email sent) sent) with false; [done|].
  symmetry. by apply String.eqb_neq.
Qed.

(** X16. Signup does not keep the emails of the user records distinct: it
    looks the address up as it was sent and stores the normalised one.
    For an address that [EmailStr] accepts and changes, and that no record
    holds as sent, two signups in a row with that address both succeed and
    leave two user records, of different identifiers, with the same
    email. *)
Theorem signup_twice_same_email (m : Mongo.database) (p1 p2 : SignupRequest) :
  signup_email p2 = signup_email p1 ->
  valid_email (signup_email p1) = true ->
  normalize_email (signup_email p1) <> signup_email p1 ->
  Mongo.find_one "user" (field_is "email" (signup_email p1)) m = None ->
  exists id1 id2 m1 m2 d1 d2,
    signup p1 (Some m) = (inr (id_response id1), Some m1)
    /\ signup p2 (Some m1) = (inr (id_response id2), Some m2)
    /\ Mongo.docs "user" m2 = Mongo.docs "user" m ++ [d1; d2]
    /\ d1 !! "email" = Some (VStr (normalize_email (signup_email p1)))
    /\ d2 !! "email" = Some (VStr (normalize_email (signup_email p1)))
    /\ d1 !! "_id" <> d2 !! "_id"
    /\ ~ NoDup (user_emails m2).
Proof.
  intros Hsame Hvalid Hne Hnone.
  pose proof (signup_run m p1 Hnone Hvalid) as H1.
  pose proof (signup_run
                (appended "user"
                   (User.dump (User.mk (signup_name p1)
                                       (normalize_email (signup_email p1))
                                       (password_hash_of (signup_password p1))
                                       Free (Some []) 0)) m) p2) as H2.
  rewrite Hsame in H2.
  specialize (H2 (sent_email_not_found_after_signup m _ _ _ Hnone Hne) Hvalid).
  eexists _, _, _, _, _, _. split; [exact H1|]. split; [exact H2|].
  assert (forall (A : Type) (l : list A) (x y : A), (l ++ [x]) ++ [y] = l ++ [x; y])
    as Happ by (intros A l x y; by rewrite <- app_assoc).
  split; [|split; [|split; [|split]]].
  - rewrite !docs_appended, !decide_True by done. apply Happ.
  - reflexivity.
  - reflexivity.
  - rewrite !lookup_insert_eq. simpl. intros [= Heq]. lia.
  - unfold user_emails. rewrite !docs_appended, !decide_True by done.
    rewrite Happ, map_app. intros Hnd.
    apply NoDup_app in Hnd as (_ & _ & Hnd). simpl in Hnd.
    apply NoDup_cons in Hnd as [Hnot _]. apply Hnot. by left.
Qed.

(** X17. In every store the service reaches from an empty one, no
    collection holds two documents with the same identifier, and every
    identifier is an ObjectId the store gave out before the next one: the
    handlers never send an [_id] of their own, so none is reused. *)
Theorem reachable_ids_distinct (m : Mongo.database) :
  reachable (Some m) ->
  (forall name, NoDup (ids_of name m))
  /\ forall name d, d ∈ Mongo.docs name m ->
       exists k, d !! "_id" = Some (VOid k) /\ (k < Mongo.next_oid m)%N.
Proof.
  intros Hr. apply reachable_store_inv in Hr as (m' & [= <-] & (Hids & Hnd & _)).
  done.
Qed.

(** *** The record login writes to *)

Lemma NoDup_map_inj {B : Type} (g : dict -> B) (l : list dict) (d1 d2 : dict) :
  NoDup (map g l) -> d1 ∈ l -> d2 ∈ l -> g d1 = g d2 -> d1 = d2.
Proof.
  induction l as [|d l IH]; simpl; intros Hnd H1 H2 Hg.
  - by apply elem_of_nil in H1.
  - apply NoDup_cons in Hnd as [Hnot Hnd].
    apply elem_of_cons in H1 as [->|H1]; apply elem_of_cons in H2 as [->|H2].
    + done.
    + exfalso. apply Hnot. rewrite Hg. apply list_elem_of_fmap. eauto.
    + exfalso. apply Hnot. rewrite <- Hg. apply list_elem_of_fmap. eauto.
    + by apply IH.
Qed.

Lemma id_filter_oid (i : value) (d : dict) (k : N) :
  d !! "_id" = Some (VOid k) ->
  Mongo.matches {[ "_id" := Mongo.Equals i ]} d = value_eqb (get d "_id") i.
Proof.
  intros Hk. rewrite matches_singleton. unfold get. rewrite Hk. simpl.
  apply orb_false_r.
Qed.

Lemma update_by_id (token : string) (i : value) (l : list dict) :
  NoDup (map (fun d : dict => d !! "_id") l) ->
  (forall d, d ∈ l -> exists k, d !! "_id" = Some (VOid k)) ->
  Mongo.update_first (Mongo.matches {[ "_id" := Mongo.Equals i ]})
                     (fun d => {[ "session_token" := VStr token ]} ∪ d) l
  = map (with_token token i) l.
Proof.
  induction l as [|d l IH]; simpl; intros Hnd Hoid; [done|].
  apply NoDup_cons in Hnd as [Hnot Hnd].
  destruct (Hoid d) as [k Hk]; [by left|].
  rewrite (id_filter_oid i d k Hk). unfold with_token at 1.
  destruct (value_eqb (get d "_id") i) eqn:E.
  - rewrite <- insert_union_singleton_l. f_equal.
    apply value_eqb_eq in E.
    clear IH. induction l as [|d' l IHl]; simpl; [done|].
    assert (value_eqb (get d' "_id") i = false) as Hd'.
    { apply value_eqb_neq. intros E'. apply Hnot.
      destruct (Hoid d') as [k' Hk']; [right; by left|].
      apply list_elem_of_fmap. exists d'. split; [|by left].
      unfold get in E, E'. rewrite Hk in E. rewrite Hk' in E'. simpl in *.
      rewrite Hk, Hk'. congruence. }
    unfold with_token at 1. rewrite Hd'. f_equal. apply IHl.
    + intros Hin. apply Hnot. simpl. by right.
    + by apply NoDup_cons in Hnd as [_ Hnd].
    + intros d0 Hd0. apply Hoid. apply elem_of_cons in Hd0 as [->|Hd0].
      * by left.
      * right. by right.
  - f_equal. apply IH; [done|]. intros d0 Hd0. apply Hoid. by right.
Qed.

(** X18. In a store the service has reached, a login whose credential
    matches the record found succeeds: the response carries the token and
    the user object read from that record, and the token is written to
    that record alone; no other document has its identifier, and every
    other user record is what it was. *)
Theorem login_marks_the_found_user
    (m : Mongo.database) (payload : LoginRequest) (u : dict) :
  reachable (Some m) ->
  Mongo.find_one "user" (field_is "email" (login_email payload)) m = Some u ->
  get u "password_hash" = VStr (password_hash_of (login_password payload)) ->
  let token := token_of (login_email payload) (login_password payload) in
  exists i m',
    u !! "_id" = Some i
    /\ login payload (Some m)
       = (inr (<["token" := VStr token]>
               (<["user" := VDict [("id", VStr (py_str i));
                                   ("name", get u "name");
                                   ("email", get u "email");
                                   ("plan", get_or u "plan" (VStr "free"))]]> ∅)),
          Some m')
    /\ Mongo.docs "user" m' = map (with_token token i) (Mongo.docs "user" m)
    /\ (forall d, d ∈ Mongo.docs "user" m -> d !! "_id" = Some i -> d = u)
    /\ (forall name, name <> "user" -> Mongo.docs name m' = Mongo.docs name m).
Proof.
  intros Hr Hfind Hhash token.
  apply reachable_store_inv in Hr as (m0 & [= <-] & (Hids & Hnd & _)).
  pose proof (find_one_matches _ _ _ _ Hfind) as [Hu Hm].
  destruct (Hids "user" u Hu) as (k & Hk & _).
  exists (VOid k). eexists. split; [done|]. split; [|split; [|split]].
  - unfold login, bind, collection, find_one, update_one, lift, getitem, ret.
    cbv beta iota. unfold field_is in Hfind. rewrite Hfind.
    rewrite (matched_string_field_truthy _ _ _ Hm). simpl.
    rewrite Hhash, value_eqb_refl. simpl. rewrite Hk. simpl. reflexivity.
  - rewrite docs_update_one, decide_True by done.
    apply update_by_id; [apply (Hnd "user")|].
    intros d Hd. destruct (Hids "user" d Hd) as (k' & Hk' & _). eauto.
  - intros d Hd Hid.
    apply (NoDup_map_inj (fun d : dict => d !! "_id") (Mongo.docs "user" m));
      [apply (Hnd "user")|done|done|congruence].
  - intros name Hne. rewrite docs_update_one. by rewrite decide_False.
Qed.

(** *** Login, then login again *)

Lemma login_run (m : Mongo.database) (payload : LoginRequest) :
  login payload (Some m)
  = match Mongo.find_one "user" (field_is "email" (login_email payload)) m with
    | None => (inl (HTTPException 404 "User not found"), Some m)
    | Some u =>
        if dict_truthy u
        then if value_eqb (get u "password_hash")
                          (VStr (password_hash_of (login_password payload)))
             then match u !! "_id" with
                  | Some i =>
                      let token :=
                        token_of (login_email payload) (login_password payload) in
                      (inr (login_response token u i),
                       Some (Mongo.update_one "user" {[ "_id" := Mongo.Equals i ]}
                               {[ "session_token" := VStr token ]} m))
                  | None => (inl (KeyError "_id"), Some m)
                  end
             else (inl (HTTPException 401 "Invalid credentials"), Some m)
        else (inl (HTTPException 404 "User not found"), Some m)
    end.
Proof.
  unfold login, bind, collection, find_one, update_one, lift, getitem, ret, field_is.
  cbv beta iota.
  destruct (Mongo.find_one _ _ m) as [u|]; [|done].
  destruct (dict_truthy u); [|done]. simpl.
  destruct (value_eqb _ _); [|done]. simpl.
  by destruct (u !! "_id").
Qed.

Lemma with_token_field (token : string) (i : value) (d : dict) (k : string) :
  k <> "session_token" -> with_token token i d !! k = d !! k.
Proof.
  intros Hk. unfold with_token. destruct (value_eqb _ _); [|done].
  by rewrite lookup_insert_ne.
Qed.

Lemma with_token_idemp (token : string) (i : value) (d : dict) :
  with_token token i (with_token token i d) = with_token token i d.
Proof.
  unfold with_token at 1. unfold get. rewrite with_token_field by done.
  fold (get d "_id"). unfold with_token.
  destruct (value_eqb (get d "_id") i); [|done]. apply insert_insert_eq.
Qed.

Lemma matches_by_field (q : Mongo.query) (d d' : dict) :
  (forall k, is_Some (q !! k) -> d' !! k = d !! k) ->
  Mongo.matches q d' = Mongo.matches q d.
Proof.
  intros H. apply eq_true_iff_eq. rewrite !matches_forall.
  split; intros Hm k c Hk; [rewrite <- H by eauto|rewrite H by eauto]; by apply Hm.
Qed.

Lemma find_one_map (q : Mongo.query) (f : dict -> dict) (l : list dict) :
  (forall d, Mongo.matches q (f d) = Mongo.matches q d) ->
  head (List.filter (Mongo.matches q) (map f l))
  = f <$> head (List.filter (Mongo.matches q) l).
Proof.
  intros Hf. induction l as [|d l IH]; simpl; [done|].
  rewrite Hf. by destruct (Mongo.matches q d).
Qed.

Lemma set_docs_twice (name : string) (l : list dict) (m : Mongo.database) :
  Mongo.set_docs name l (Mongo.set_docs name l m) = Mongo.set_docs name l m.
Proof. unfold Mongo.set_docs. simpl. by rewrite insert_insert_eq. Qed.

(** X19. In a store the service has reached, a login that succeeded
    succeeds again with the same response, and the second time the store
    stays exactly as the first login left it: the token depends on email
    and password alone and is never renewed. *)
Theorem login_again_changes_nothing
    (m m' : Mongo.database) (payload : LoginRequest) (response : dict) :
  reachable (Some m) ->
  login payload (Some m) = (inr response, Some m') ->
  login payload (Some m') = (inr response, Some m').
Proof.
  intros Hr Hlogin.
  apply reachable_store_inv in Hr as (m0 & [= <-] & Hinv).
  rewrite login_run in Hlogin.
  destruct (Mongo.find_one "user" _ m) as [u|] eqn:Hfind; [|discriminate].
  destruct (dict_truthy u) eqn:Htruthy; [|discriminate].
  destruct (value_eqb _ _) eqn:Hhash; [|discriminate].
  destruct (u !! "_id") as [i|] eqn:Hid; [|discriminate].
  cbv zeta in Hlogin. injection Hlogin as <- <-.
  set (token := token_of (login_email payload) (login_password payload)).
  set (m' := Mongo.update_one "user" {[ "_id" := Mongo.Equals i ]}
               {[ "session_token" := VStr token ]} m).
  pose proof (store_inv_token {[ "_id" := Mongo.Equals i ]} token m Hinv) as Hinv'.
  fold m' in Hinv'.
  destruct Hinv as (Hids & Hnd & _).
  assert (Mongo.docs "user" m' = map (with_token token i) (Mongo.docs "user" m)) as Hdocs.
  { unfold m'. rewrite docs_update_one, decide_True by done.
    apply update_by_id; [apply (Hnd "user")|].
    intros d Hd. destruct (Hids "user" d Hd) as (k & Hk & _). eauto. }
  pose proof (find_one_matches _ _ _ _ Hfind) as [Hu _].
  assert (with_token token i u = <["session_token" := VStr token]> u) as Hu'.
  { unfold with_token, get. rewrite Hid. simpl. by rewrite value_eqb_refl. }
  assert (Mongo.find_one "user" (field_is "email" (login_email payload)) m'
          = Some (<["session_token" := VStr token]> u)) as Hfind'.
  { unfold Mongo.find_one, Mongo.find in *. rewrite Hdocs, find_one_map.
    - by rewrite Hfind, <- Hu'.
    - intros d. apply matches_by_field. intros k Hk. apply with_token_field.
      intros ->. unfold field_is in Hk. rewrite lookup_singleton_ne in Hk by done.
      by destruct Hk. }
  rewrite login_run, Hfind'.
  assert (dict_truthy (<["session_token" := VStr token]> u) = true) as ->.
  { unfold dict_truthy. rewrite negb_true_iff, bool_decide_eq_false.
    intros He. apply (f_equal (fun d : dict => d !! "session_token")) in He.
    by rewrite lookup_insert_eq, lookup_empty in He. }
  unfold get, get_or, login_response in *.
  rewrite !lookup_insert_ne by done. rewrite Hhash, Hid. cbv zeta. fold token.
  f_equal.
  { unfold login_response, get, get_or. by rewrite !lookup_insert_ne by done. }
  f_equal.
  unfold Mongo.update_one at 1.
  assert (Mongo.update_first (Mongo.matches {[ "_id" := Mongo.Equals i ]})
            (fun d => {[ "session_token" := VStr token ]} ∪ d) (Mongo.docs "user" m')
          = Mongo.docs "user" m') as ->.
  { destruct Hinv' as (Hids' & Hnd' & _).
    rewrite update_by_id; [|apply (Hnd' "user")|].
    - rewrite Hdocs, map_map. apply map_ext. intros d. apply with_token_idemp.
    - intros d Hd. destruct (Hids' "user" d Hd) as (k & Hk & _). eauto. }
  assert (Mongo.docs "user" m'
          = Mongo.update_first (Mongo.matches {[ "_id" := Mongo.Equals i ]})
              (fun d => {[ "session_token" := VStr token ]} ∪ d) (Mongo.docs "user" m))
    as -> by (unfold m'; rewrite docs_update_one; by rewrite decide_True).
  unfold m', Mongo.update_one. apply set_docs_twice.
Qed.

(** *** Listings without a search term *)

(** X20. On an available store GET /library without a search term (or
    with an empty one) and GET /programs always return: the stored
    documents that pass the equality filters of the non-empty parameters,
    each without its [_id]; a null description or title is no obstacle
    there. *)
Theorem listings_without_term_return
    (m : Mongo.database) (category tier : option string) :
  list_content category None tier (Some m)
  = (inr (map (delete "_id")
            (List.filter (library_matches category tier)
                         (Mongo.docs "contentitem" m))), Some m)
  /\ list_content category (Some EmptyString) tier (Some m)
     = list_content category None tier (Some m)
  /\ list_programs tier (Some m)
     = (inr (map (delete "_id")
               (List.filter (eq_filter "tier" tier) (Mongo.docs "program" m))),
        Some m).
Proof.
  split; [|split].
  - by rewrite list_content_run.
  - reflexivity.
  - unfold list_programs, bind, get_documents, ret. cbv zeta.
    rewrite (find_ext _ _ _ (eq_filter "tier" tier)); [done|].
    intros d. unfold eq_filter. destruct (str_truthy tier).
    + apply matches_singleton.
    + apply matches_empty.
Qed.

End Main.

(** ** The properties on concrete requests *)

(** The sample stores are stores the handlers produce. *)
Lemma store_31_checkins_reached :
  Nat.iter 31 (fun db => snd (create_checkin sample_str a_checkin_of_u1 db))
           (Some empty_store)
  = Some store_31_checkins.
Proof. vm_compute. reflexivity. Qed.

Lemma ann_store_reached :
  snd (signup sample_hash sample_str sample_email sample_normalize
         {| signup_name := "Ann"; signup_email := "ann@example.org";
            signup_password := "secret" |} (Some empty_store))
  = Some ann_store.
Proof. vm_compute. reflexivity. Qed.

Lemma yoga_store_reached :
  snd (add_content sample_str yoga_flow (Some empty_store)) = Some yoga_store.
Proof. vm_compute. reflexivity. Qed.

(** C1, the claim as stated fails: with 31 check-ins of user "u1" stored,
    GET /checkins for "u1" without a limit returns 30 records, not the 31
    that match. *)
Lemma checkins_without_limit_truncated :
  exists docs,
    list_checkins sample_str "u1" None (Some store_31_checkins)
    = (inr docs, Some store_31_checkins)
    /\ length docs = 30%nat
    /\ length (Mongo.find "checkin" (field_is "user_id" "u1") store_31_checkins)
       = 31%nat.
Proof.
  eexists. split; [reflexivity|]. split; vm_compute; reflexivity.
Qed.

Lemma list_limit_bounds_witness :
  0 <= 5
  /\ forall user_id db docs db',
       list_checkins sample_str user_id (Some 5) db = (inr docs, db') ->
       Z.of_nat (length docs) <= 5.
Proof.
  split; [lia|].
  apply (list_limit_bounds sample_str store_31_checkins 5). lia.
Defined.

(** C2, the claim as stated fails for squads: the squad "Morning Crew"
    sent with no members comes back from GET /squads with the member list
    ["u1"]. *)
Lemma squad_round_trip_changes_members :
  exists new_id m' r,
    create_squad sample_str morning_crew (Some empty_store) = (inr new_id, Some m')
    /\ list_squads sample_str (Some "u1") (Some m') = (inr [r], Some m')
    /\ r !! "members" = Some (VList [VStr "u1"])
    /\ model_dump morning_crew !! "members" = Some (VList [])
    /\ r !! "members" <> model_dump morning_crew !! "members".
Proof.
  do 3 eexists. split; [reflexivity|]. split; [reflexivity|].
  split; [reflexivity|]. split; [reflexivity|]. discriminate.
Qed.

Lemma create_then_list_round_trip_witness :
  let task := Task.mk "u7" "2024-W03" "stretch" None true in
  key_usable (a_task task)
  /\ Mongo.find "task" (field_is "user_id" "u7") ann_store = []
  /\ exists new_id m',
       submit_task sample_str task (Some ann_store) = (inr (id_response new_id), Some m')
       /\ list_tasks sample_str "u7" None (Some m')
          = (inr [<["id" := VStr new_id]> (Task.dump task)], Some m').
Proof.
  intros task. split; [exact I|]. split; [reflexivity|].
  apply (create_then_list_round_trip sample_str ann_store (a_task task));
    [exact I|reflexivity].
Defined.


Lemma login_failures_leave_store_witness :
  login sample_hash sample_str
        {| login_email := "bob@example.org"; login_password := "secret" |}
        (Some ann_store)
  = (inl (HTTPException 404 "User not found"), Some ann_store)
  /\ login sample_hash sample_str
           {| login_email := "ann@example.org"; login_password := "wrong" |}
           (Some ann_store)
     = (inl (HTTPException 401 "Invalid credentials"), Some ann_store).
Proof.
  split.
  - apply (login_failures_leave_store sample_hash sample_str ann_store
             {| login_email := "bob@example.org"; login_password := "secret" |}).
    reflexivity.
  - apply (proj1 (proj2 (login_failures_leave_store sample_hash sample_str ann_store
             {| login_email := "ann@example.org"; login_password := "wrong" |}))
             (<["_id" := VOid 0]> (User.dump ann))).
    + reflexivity.
    + vm_compute. discriminate.
Defined.

Lemma responses_hide_internal_id_witness :
  handle_ids (Some store_31_checkins) = true
  /\ forall user_id limit r db',
       list_checkins sample_str user_id limit (Some store_31_checkins) = (inr r, db') ->
       Forall (fun d => no_internal_id d /\ string_id d
                        /\ renamed_from sample_str "checkin"
                                        (Some store_31_checkins) d) r.
Proof.
  split; [reflexivity|].
  apply (responses_hide_internal_id sample_hash sample_str ascii_lower
           (Some store_31_checkins)).
  reflexivity.
Defined.

(** C7, the failing request: after POST /library of "Yoga Flow" without a
    description, GET /library?q=breathing raises, where the items in whose
    title or description the term occurs are the empty list. *)
Theorem library_search_fails_on_plain_item :
  exists new_id,
    add_content sample_str yoga_flow (Some empty_store)
    = (inr new_id, Some yoga_store)
    /\ list_content ascii_lower None (Some "breathing") None (Some yoga_store)
       = (inl (AttributeError "'NoneType' object has no attribute 'lower'"),
          Some yoga_store)
    /\ List.filter (search_matches ascii_lower "breathing")
                   (Mongo.docs "contentitem" yoga_store)
       = [].
Proof.
  eexists. split; [reflexivity|]. split; reflexivity.
Qed.

(** The scenario of the library: after "Breathing 101" is created in an
    empty store, the search for "breathing" returns it and the category
    "art" does not. *)
Lemma library_scenario :
  exists new_id db',
    add_content sample_str breathing_101 (Some empty_store) = (inr new_id, db')
    /\ list_content ascii_lower None (Some "breathing") None db'
       = (inr [ContentItem.dump breathing_101], db')
    /\ list_content ascii_lower (Some "art") None None db' = (inr [], db').
Proof.
  do 2 eexists. split; [reflexivity|]. split; reflexivity.
Qed.

Lemma feedback_rating_out_of_range_rejected_witness :
  let fb := Feedback.mk (Some "u1") "too loud" (Some 6) in
  with_body (submit_feedback sample_str) fb (Some empty_store)
  = (inl (RequestValidationError "rating"), Some empty_store).
Proof.
  intros fb.
  apply (feedback_rating_out_of_range_rejected sample_str (Some empty_store) fb 6).
  - reflexivity.
  - right. lia.
Defined.


(** ** The further properties on concrete requests *)

Lemma ann_store_reachable :
  reachable sample_hash sample_str sample_email sample_normalize ascii_lower (Some ann_store).
Proof.
  pose proof (reach_step sample_hash sample_str sample_email sample_normalize ascii_lower
                (POST_signup {| signup_name := "Ann";
                                signup_email := "ann@example.org";
                                signup_password := "secret" |})
                (Some empty_store)
                (reach_empty sample_hash sample_str sample_email sample_normalize
                             ascii_lower)) as H.
  vm_compute in H. exact H.
Qed.

Lemma signup_creates_user_witness :
  signup sample_hash sample_str sample_email sample_normalize
         {| signup_name := "Ann"; signup_email := "Ann@EXAMPLE.ORG";
            signup_password := "secret" |} (Some empty_store)
  = (inr (id_response "oid0"),
     Some (appended "user"
             (User.dump (User.mk "Ann" "Ann@example.org" "sha1::13" Free (Some []) 0))
             empty_store)).
Proof.
  destruct (signup_creates_user sample_hash sample_str sample_email sample_normalize
              empty_store
              {| signup_name := "Ann"; signup_email := "Ann@EXAMPLE.ORG";
                 signup_password := "secret" |} eq_refl eq_refl) as [H _].
  exact H.
Defined.

Lemma signup_invalid_email_unhandled_witness :
  with_body (H := SignupRequest_model)
            (signup sample_hash sample_str sample_email sample_normalize)
            {| signup_name := "Ann"; signup_email := "ann.example.org";
               signup_password := "secret" |} (Some ann_store)
  = (inl (ValidationError "email"), Some ann_store).
Proof.
  apply (signup_invalid_email_unhandled sample_hash sample_str sample_email
           sample_normalize ann_store
           {| signup_name := "Ann"; signup_email := "ann.example.org";
              signup_password := "secret" |}); reflexivity.
Defined.

Lemma reads_leave_store_witness :
  after sample_hash sample_str sample_email sample_normalize ascii_lower
        (GET_library None (Some "breathing") None) (Some yoga_store)
  = Some yoga_store.
Proof.
  apply (reads_leave_store sample_hash sample_str sample_email sample_normalize ascii_lower
           (GET_library None (Some "breathing") None) (Some yoga_store)).
  reflexivity.
Defined.

Lemma create_adds_one_document_witness :
  let feedback := Feedback.mk None "calm and clear" (Some 5) in
  after sample_hash sample_str sample_email sample_normalize ascii_lower
        (POST_feedback feedback) (Some ann_store)
  = Some (appended "feedback" (Feedback.dump feedback) ann_store).
Proof.
  intros feedback.
  apply (create_adds_one_document sample_hash sample_str sample_email sample_normalize
           ascii_lower
           (POST_feedback feedback) "feedback" (Feedback.dump feedback) ann_store);
    reflexivity.
Defined.

Lemma search_ignores_term_case_witness :
  list_content ascii_lower None (Some "Yoga") None (Some yoga_store)
  = list_content ascii_lower None (Some "yOGA") None (Some yoga_store).
Proof.
  apply (search_ignores_term_case ascii_lower ascii_lower_nil ascii_lower_nonempty
           (Some yoga_store) None None "Yoga" "yOGA").
  reflexivity.
Defined.

Lemma library_search_returns_or_raises_witness :
  list_content ascii_lower None (Some "yoga") None (Some yoga_store)
  = (inr [ContentItem.dump yoga_flow], Some yoga_store).
Proof.
  destruct (library_search_returns_or_raises ascii_lower yoga_store None None "yoga") as [H _].
  - discriminate.
  - exact (H eq_refl).
Defined.

Lemma created_record_is_listed_witness :
  exists new_id m' before after_create,
    create_checkin sample_str a_checkin_of_u1 (Some ann_store)
    = (inr (id_response new_id), Some m')
    /\ list_checkins sample_str "u1" None (Some ann_store) = (inr before, Some ann_store)
    /\ list_checkins sample_str "u1" None (Some m') = (inr after_create, Some m')
    /\ after_create ≡ₚ <["id" := VStr new_id]> (Checkin.dump a_checkin_of_u1) :: before.
Proof.
  apply (created_record_is_listed sample_str ann_store (a_checkin a_checkin_of_u1)).
  - exact I.
  - simpl. vm_compute. lia.
Defined.

Lemma squad_listed_for_every_member_witness :
  let squad := Squad.mk "Evening Crew" None "u1" ["u2"; "u3"] in
  exists new_id m' l,
    create_squad sample_str squad (Some empty_store) = (inr (id_response new_id), Some m')
    /\ list_squads sample_str (Some "u3") (Some m') = (inr l, Some m')
    /\ <["id" := VStr new_id]> (returned (a_squad squad)) ∈ l.
Proof.
  intros squad.
  apply (squad_listed_for_every_member sample_str empty_store squad "u3").
  - discriminate.
  - right. apply list_elem_of_In. simpl. tauto.
Defined.


Lemma signup_twice_same_email_witness :
  let ann_sent := {| signup_name := "Ann"; signup_email := "Ann@EXAMPLE.ORG";
                     signup_password := "secret" |} in
  exists id1 id2 m1 m2 d1 d2,
    signup sample_hash sample_str sample_email sample_normalize ann_sent
           (Some empty_store)
    = (inr (id_response id1), Some m1)
    /\ signup sample_hash sample_str sample_email sample_normalize ann_sent (Some m1)
       = (inr (id_response id2), Some m2)
    /\ Mongo.docs "user" m2 = [d1; d2]
    /\ d1 !! "email" = Some (VStr "Ann@example.org")
    /\ d2 !! "email" = Some (VStr "Ann@example.org")
    /\ d1 !! "_id" <> d2 !! "_id"
    /\ ~ NoDup (user_emails m2).
Proof.
  intros ann_sent.
  apply (signup_twice_same_email sample_hash sample_str sample_email sample_normalize
           empty_store ann_sent ann_sent).
  - reflexivity.
  - reflexivity.
  - vm_compute. discriminate.
  - reflexivity.
Defined.

Lemma reachable_ids_distinct_witness : NoDup (ids_of "user" ann_store).
Proof.
  apply (proj1 (reachable_ids_distinct sample_hash sample_str sample_email
                  sample_normalize ascii_lower ann_store
                  ann_store_reachable)).
Defined.

Lemma login_marks_the_found_user_witness :
  exists i m' response,
    login sample_hash sample_str
          {| login_email := "ann@example.org"; login_password := "secret" |}
          (Some ann_store)
    = (inr response, Some m')
    /\ Mongo.docs "user" m'
       = map (with_token
                (token_of sample_hash sample_str "ann@example.org" "secret") i)
             (Mongo.docs "user" ann_store).
Proof.
  destruct (login_marks_the_found_user sample_hash sample_str sample_email
              sample_normalize ascii_lower ann_store
              {| login_email := "ann@example.org"; login_password := "secret" |}
              (<["_id" := VOid 0]> (User.dump ann))
              ann_store_reachable eq_refl eq_refl)
    as (i & m' & _ & H1 & H2 & _).
  exists i, m'. eexists. split; [exact H1|exact H2].
Defined.

Lemma login_again_changes_nothing_witness :
  exists response m',
    login sample_hash sample_str
          {| login_email := "ann@example.org"; login_password := "secret" |}
          (Some ann_store)
    = (inr response, Some m')
    /\ login sample_hash sample_str
             {| login_email := "ann@example.org"; login_password := "secret" |}
             (Some m')
       = (inr response, Some m').
Proof.
  destruct (login sample_hash sample_str
              {| login_email := "ann@example.org"; login_password := "secret" |}
              (Some ann_store)) as [r db'] eqn:E.
  pose proof E as E'. vm_compute in E'. injection E' as <- <-.
  eexists _, _. split; [reflexivity|].
  apply (login_again_changes_nothing sample_hash sample_str sample_email
           sample_normalize ascii_lower ann_store _
           {| login_email := "ann@example.org"; login_password := "secret" |} _
           ann_store_reachable).
  exact E.
Defined.
